(** * pydocmd.loader: the Python loader of pydoc-markdown

    A shallow embedding of [src/pydocmd/loader.py]: the named-tuple
    duck-type check [isnamedtuple], the method [PythonLoader.load_section]
    and the function [get_function_signature], together with the two
    standard library functions whose results they store: [textwrap.dedent]
    and the text of [inspect.signature].

    A section ([PySection]) is a mutable Python object.  [load_section] writes its
    fields one after the other and may raise in between, so the embedding
    threads the section through a state-and-exception monad in which the
    state survives a raised exception. *)

From Stdlib Require Import String Ascii List Bool Arith ZArith Lia.
Import ListNotations.
Open Scope list_scope.
Open Scope string_scope.

Set Implicit Arguments.

(** ** Strings as Python uses them *)

Module PyStr.

(** The one-character strings ["\n"] and ["\t"]. *)
Definition nl_char : ascii := ascii_of_nat 10.
Definition tab_char : ascii := ascii_of_nat 9.
Definition nl : string := String nl_char EmptyString.

(** [s.startswith(p)]. *)
Fixpoint startswith (p s : string) : bool :=
  match p, s with
  | EmptyString, _ => true
  | String _ _, EmptyString => false
  | String a p', String b s' => Ascii.eqb a b && startswith p' s'
  end.

(** [sub in s] for strings. *)
Fixpoint contains (sub s : string) : bool :=
  startswith sub s ||
  match s with
  | EmptyString => false
  | String _ s' => contains sub s'
  end.

(** [c in s] for a single character, as a proposition. *)
Fixpoint occurs (c : ascii) (s : string) : Prop :=
  match s with
  | EmptyString => False
  | String a s' => a = c \/ occurs c s'
  end.

(** [s.rsplit(c, 1)]: the list [[s]] when [c] does not occur in [s],
    and [[before; after]] around the last occurrence of [c] otherwise. *)
Fixpoint rsplit1_pair (c : ascii) (s : string) : option (string * string) :=
  match s with
  | EmptyString => None
  | String a s' =>
      match rsplit1_pair c s' with
      | Some (h, t) => Some (String a h, t)
      | None => if Ascii.eqb a c then Some (EmptyString, s') else None
      end
  end.

Definition rsplit1 (c : ascii) (s : string) : list string :=
  match rsplit1_pair c s with
  | Some (h, t) => [h; t]
  | None => [s]
  end.

(** [s.split(c)]: never the empty list. *)
Fixpoint split (c : ascii) (s : string) : list string :=
  match s with
  | EmptyString => [EmptyString]
  | String a s' =>
      if Ascii.eqb a c then EmptyString :: split c s'
      else match split c s' with
           | l :: ls => String a l :: ls
           | [] => [String a EmptyString]
           end
  end.

(** [sep.join(parts)]. *)
Definition join (sep : string) (parts : list string) : string :=
  String.concat sep parts.

(** The characters after the first [n]: [s[n:]]. *)
Fixpoint drop (n : nat) (s : string) : string :=
  match n, s with
  | O, _ => s
  | S _, EmptyString => EmptyString
  | S n', String _ s' => drop n' s'
  end.

End PyStr.
Import PyStr.

(** ** Exceptions and results *)

Inductive exn : Type :=
| AssertionError
| AttributeError (attr : string)
| IndexError
| TypeError
| Raised (what : string).  (* an exception of a collaborator or of the standard library *)

Inductive result (A : Type) : Type :=
| Ok (a : A)
| Raise (e : exn).
Arguments Ok {A} a.
Arguments Raise {A} e.

(** ** Reflective view of Python objects *)

(** [inspect.Parameter.kind]. *)
Inductive ParameterKind : Type :=
| POSITIONAL_ONLY
| POSITIONAL_OR_KEYWORD
| VAR_POSITIONAL
| KEYWORD_ONLY
| VAR_KEYWORD.

(** [inspect.Parameter]; a default is kept as its [repr], an annotation
    as its formatted text. *)
Record Param : Type := {
  param_name : string;
  param_kind : ParameterKind;
  param_default : option string;
  param_annotation : option string
}.

(** [inspect.Signature]. *)
Record Signature : Type := {
  sig_parameters : list Param;
  sig_return_annotation : option string
}.

(** [inspect.ArgSpec], the result of [inspect.getargspec]; the defaults
    are kept as their [repr]. *)
Record ArgSpec : Type := {
  argspec_args : list string;
  argspec_varargs : option string;
  argspec_keywords : option string;
  argspec_defaults : option (list string)
}.

(** What the loader can observe of an object. *)
Record PyObj : Type := {
  py_name : option string;             (* o.__name__, when the attribute exists *)
  py_doc : option string;              (* o.__doc__, when it exists and is not None *)
  py_module : option string;           (* o.__module__, when the attribute exists *)
  py_has_fields : bool;                (* hasattr(o, "_fields") *)
  py_asdict : option bool;             (* callable(o._asdict), when the attribute exists *)
  py_isclass : bool;                   (* inspect.isclass(o) *)
  py_callable : bool;                  (* callable(o) *)
  py_truthy : bool;                    (* bool(o) *)
  py_signature : result Signature;     (* inspect.signature(o) *)
  py_argspec : result ArgSpec          (* inspect.getargspec(o) *)
}.

(** A scope is an object or Python's [None]. *)
Definition isclass_opt (o : option PyObj) : bool :=
  match o with
  | Some c => py_isclass c
  | None => false
  end.

Definition truthy_opt (o : option PyObj) : bool :=
  match o with
  | Some c => py_truthy c
  | None => false
  end.

Definition truthy_str (o : option string) : bool :=
  match o with
  | Some s => negb (String.eqb s EmptyString)
  | None => false
  end.

(** ** The section object *)

Record LoaderContext : Type := {
  ctx_obj : PyObj;
  ctx_scope : option PyObj
}.

Record PySection : Type := {
  identifier : option string;
  title : option string;
  content : option string;
  loader_context : option LoaderContext
}.

(** ** State and exceptions *)

Definition M (A : Type) : Type := PySection -> result A * PySection.

Definition ret {A} (a : A) : M A := fun s => (Ok a, s).

Definition bind {A B} (m : M A) (k : A -> M B) : M B :=
  fun s =>
    match m s with
    | (Ok a, s') => k a s'
    | (Raise e, s') => (Raise e, s')
    end.

Definition raise {A} (e : exn) : M A := fun s => (Raise e, s).

Definition lift {A} (r : result A) : M A := fun s => (r, s).

Declare Scope py_scope.
Delimit Scope py_scope with py.
Notation "x <- m ;; k" := (bind m (fun x => k))
  (at level 61, m at next level, right associativity) : py_scope.
Notation "m ;; k" := (bind m (fun _ => k))
  (at level 61, right associativity) : py_scope.
Open Scope py_scope.

Definition get_identifier : M (option string) := fun s => (Ok (identifier s), s).

Definition set_title (t : string) : M unit :=
  fun s => (Ok tt, {| identifier := identifier s; title := Some t;
                      content := content s; loader_context := loader_context s |}).

Definition set_content (c : string) : M unit :=
  fun s => (Ok tt, {| identifier := identifier s; title := title s;
                      content := Some c; loader_context := loader_context s |}).

Definition set_loader_context (x : LoaderContext) : M unit :=
  fun s => (Ok tt, {| identifier := identifier s; title := title s;
                      content := content s; loader_context := Some x |}).

(** Reading a field that holds [None] where a string is needed is a
    [TypeError]. *)
Definition get_title : M string :=
  fun s => match title s with
           | Some t => (Ok t, s)
           | None => (Raise TypeError, s)
           end.

Definition get_content : M string :=
  fun s => match content s with
           | Some c => (Ok c, s)
           | None => (Raise TypeError, s)
           end.

(** [section.title += suffix]. *)
Definition append_title (suffix : string) : M unit :=
  t <- get_title ;; set_title (t ++ suffix).

(** [xs[i]] for a list. *)
Definition getitem {A} (xs : list A) (i : nat) : result A :=
  match nth_error xs i with
  | Some x => Ok x
  | None => Raise IndexError
  end.

(** [xs[i]] and [xs[i] = v] with Python's indices: a negative index counts
    from the end, an index out of range raises [IndexError]. *)
Definition py_index (len : nat) (i : Z) : option nat :=
  if (0 <=? i)%Z && (i <? Z.of_nat len)%Z then Some (Z.to_nat i)
  else if (- Z.of_nat len <=? i)%Z && (i <? 0)%Z then Some (Z.to_nat (i + Z.of_nat len))
  else None.

Definition getitem_z {A} (xs : list A) (i : Z) : result A :=
  match py_index (List.length xs) i with
  | Some n => getitem xs n
  | None => Raise IndexError
  end.

Fixpoint list_set {A} (xs : list A) (n : nat) (v : A) : list A :=
  match xs, n with
  | [], _ => []
  | _ :: xs', O => v :: xs'
  | x :: xs', S n' => x :: list_set xs' n' v
  end.

Definition setitem_z {A} (xs : list A) (i : Z) (v : A) : result (list A) :=
  match py_index (List.length xs) i with
  | Some n => Ok (list_set xs n v)
  | None => Raise IndexError
  end.

(** Exceptions without state, for the functions that touch no section. *)
Definition rbind {A B} (r : result A) (k : A -> result B) : result B :=
  match r with
  | Ok a => k a
  | Raise e => Raise e
  end.

Notation "x <~ r ;; k" := (rbind r (fun x => k))
  (at level 61, r at next level, right associativity) : py_scope.

(** [o.attr] for an attribute that may be missing. *)
Definition attr {A} (name : string) (v : option A) : result A :=
  match v with
  | Some x => Ok x
  | None => Raise (AttributeError name)
  end.

(** ** [textwrap.dedent]

    The standard library function, in its regular-expression form (CPython
    2.7 to 3.13), read line by line: [^] and [$] of a multi-line pattern
    match around ["\n"] only. *)

Module Textwrap.

(** The character class of the two patterns: space and tab. *)
Definition is_blank_char (c : ascii) : bool :=
  Ascii.eqb c " " || Ascii.eqb c tab_char.

(** A line of spaces and tabs only (the empty line included). *)
Fixpoint whitespace_only (l : string) : bool :=
  match l with
  | EmptyString => true
  | String c l' => is_blank_char c && whitespace_only l'
  end.

(** [_whitespace_only_re.sub('', text)] on one line: a line of spaces
    and tabs is replaced by the empty string. *)
Definition blank_out (l : string) : string :=
  if whitespace_only l then EmptyString else l.

(** The group of [_leading_whitespace_re] on one line: the spaces and
    tabs it starts with. *)
Fixpoint leading_whitespace (l : string) : string :=
  match l with
  | EmptyString => EmptyString
  | String c l' =>
      if is_blank_char c then String c (leading_whitespace l') else EmptyString
  end.

(** [_leading_whitespace_re.findall(text)]: the pattern needs a character
    other than space, tab and newline after the group, so it matches on
    the lines that are not whitespace only. *)
Definition indents (lines : list string) : list string :=
  map leading_whitespace (filter (fun l => negb (whitespace_only l)) lines).

(** The innermost loop: cut [margin] at the first position where it
    differs from [indent]; unchanged when [zip] ends first. *)
Fixpoint cut_at_mismatch (margin indent : string) : string :=
  match margin, indent with
  | String x m', String y i' =>
      if Ascii.eqb x y then String x (cut_at_mismatch m' i') else EmptyString
  | _, _ => margin
  end.

(** One round of [for indent in indents]. *)
Definition margin_step (margin : option string) (indent : string) : option string :=
  match margin with
  | None => Some indent
  | Some m =>
      if startswith m indent then Some m
      else if startswith indent m then Some indent
      else Some (cut_at_mismatch m indent)
  end.

Definition margin_of (lines : list string) : option string :=
  fold_left margin_step (indents lines) None.

(** The final [re.sub] on one line: [margin] is removed where a line
    starts with it. *)
Definition remove_margin (margin l : string) : string :=
  if startswith margin l then drop (String.length margin) l else l.

Definition dedent (text : string) : string :=
  let lines := map blank_out (split nl_char text) in
  match margin_of lines with
  | Some (String c m) => join nl (map (remove_margin (String c m)) lines)
  | _ => join nl lines
  end.

End Textwrap.

(** ** The text of [inspect.signature]

    [str] of the standard library's [Parameter] and [Signature] (CPython
    3.7 and later). *)

Module Inspect.

Definition str_Param (p : Param) : string :=
  let formatted := param_name p in
  let formatted :=
    match param_annotation p with
    | Some a => formatted ++ ": " ++ a
    | None => formatted
    end in
  let formatted :=
    match param_default p, param_annotation p with
    | Some d, Some _ => formatted ++ " = " ++ d
    | Some d, None => formatted ++ "=" ++ d
    | None, _ => formatted
    end in
  match param_kind p with
  | VAR_POSITIONAL => "*" ++ formatted
  | VAR_KEYWORD => "**" ++ formatted
  | _ => formatted
  end.

(** The loop of [Signature.__str__] with its two flags; the list is
    [result]. *)
Fixpoint render_params (ps : list Param)
         (render_pos_only_separator render_kw_only_separator : bool) : list string :=
  match ps with
  | [] => if render_pos_only_separator then ["/"] else []
  | p :: ps' =>
      let slash :=
        match param_kind p with
        | POSITIONAL_ONLY => []
        | _ => if render_pos_only_separator then ["/"] else []
        end in
      let pos' :=
        match param_kind p with
        | POSITIONAL_ONLY => true
        | _ => false
        end in
      let star :=
        match param_kind p with
        | KEYWORD_ONLY => if render_kw_only_separator then ["*"] else []
        | _ => []
        end in
      let kw' :=
        match param_kind p with
        | VAR_POSITIONAL => false
        | KEYWORD_ONLY => false
        | _ => render_kw_only_separator
        end in
      (slash ++ star ++ str_Param p :: render_params ps' pos' kw')%list
  end.

Definition str_Signature (sg : Signature) : string :=
  let rendered := "(" ++ join ", " (render_params (sig_parameters sg) false true) ++ ")" in
  match sig_return_annotation sg with
  | Some anno => rendered ++ " -> " ++ anno
  | None => rendered
  end.

End Inspect.

Import Textwrap Inspect.

(** ** [pydocmd.loader] *)

(** Check if an object (o) is a namedtuple type. *)
Definition isnamedtuple (o : PyObj) : bool :=
  py_has_fields o &&
  match py_asdict o with
  | Some asdict_callable => asdict_callable
  | None => false
  end.

(** The loop of the [getargspec] branch:
    [args[i + offset] = '{}={!r}'.format(args[i + offset], argspec.defaults[i])]
    for [i] from the given index on. *)
Fixpoint fill_defaults (args : list string) (offset : Z) (i : nat)
         (defaults : list string) : result (list string) :=
  match defaults with
  | [] => Ok args
  | default :: rest =>
      a <~ getitem_z args (Z.of_nat i + offset) ;;
      args' <~ setitem_z args (Z.of_nat i + offset) (a ++ "=" ++ default) ;;
      fill_defaults args' offset (S i) rest
  end.

(** The [getargspec] branch, from [args = argspec.args[:]] on. *)
Definition argspec_signature (argspec : ArgSpec) : result string :=
  let args := argspec_args argspec in
  args <~ match argspec_defaults argspec with
          | Some (d :: ds) =>
              let offset := (Z.of_nat (List.length args)
                             - Z.of_nat (List.length (d :: ds)))%Z in
              fill_defaults args offset 0 (d :: ds)
          | _ => Ok args
          end ;;
  let args :=
    match argspec_varargs argspec with
    | Some v => if truthy_str (Some v) then app args ["*" ++ v] else args
    | None => args
    end in
  let args :=
    match argspec_keywords argspec with
    | Some k => if truthy_str (Some k) then app args ["**" ++ k] else args
    | None => args
    end in
  Ok ("(" ++ join ", " args ++ ")").

Section Loader.

(** [hasattr(inspect, 'signature')]: which Python runs the loader. *)
Variable has_inspect_signature : bool.

(** [pydocmd.imp.import_object_with_scope], the resolver: an object and
    its scope, or the exception it raises. *)
Variable import_object_with_scope : string -> result (PyObj * option PyObj).

Definition get_function_signature (function : PyObj) (owner_class : option PyObj)
           (show_module : bool) : result string :=
  (* Get base name. *)
  name_parts <~ (if show_module
                 then m <~ attr "__module__" (py_module function) ;; Ok [m]
                 else Ok []) ;;
  name_parts <~ (if truthy_opt owner_class
                 then n <~ attr "__name__"
                             (match owner_class with
                              | Some c => py_name c
                              | None => None
                              end) ;;
                      Ok (app name_parts [n])
                 else Ok name_parts) ;;
  (* Remove '__init__' from constructor name and signature *)
  fname <~ attr "__name__" (py_name function) ;;
  let name_parts :=
    if negb (String.eqb fname "__init__") then app name_parts [fname]
    else name_parts in
  let name := join "." name_parts in
  sig <~ (if has_inspect_signature
          then sg <~ py_signature function ;; Ok (str_Signature sg)
          else argspec <~ py_argspec function ;; argspec_signature argspec) ;;
  Ok (name ++ sig).

Definition load_section : M unit :=
  section_identifier <- get_identifier ;;
  ident <- match section_identifier with
           | Some i => ret i
           | None => raise AssertionError
           end ;;
  found <- lift (import_object_with_scope ident) ;;
  let obj := fst found in
  let scope := snd found in
  default_title <- (if contains "." ident
                    then lift (getitem (rsplit1 "." ident) 1)
                    else ret ident) ;;
  (* Substitute name '__init__' with 'Constructor' *)
  let title :=
    match py_name obj with
    | Some n => n
    | None => default_title
    end in
  let title :=
    if String.eqb title "__init__" then "Constructor __init__" else title in
  set_title title ;;
  set_content (dedent (match py_doc obj with
                       | Some d => d
                       | None => EmptyString
                       end)) ;;
  set_loader_context {| ctx_obj := obj; ctx_scope := scope |} ;;
  (* Identify the object as class, function, or namedtuple and append
     type to title *)
  (if isnamedtuple obj then append_title " namedtuple"
   else if py_isclass obj then append_title " class"
   else if py_callable obj && negb (isclass_opt scope) then append_title " function"
   else ret tt) ;;
  (* Add the function signature in a code-block.
     Ignore namedtuple signature *)
  section_content <- get_content ;;
  if py_callable obj && negb (contains "namedtuple" section_content)
  then
    sig <- lift (get_function_signature obj
                   (if isclass_opt scope then scope else None) false) ;;
    (* Correct the class docstring bug *)
    if negb (py_isclass obj)
    then
      section_content <- get_content ;;
      set_content ("```python" ++ nl ++ sig ++ nl ++ "```" ++ nl ++ section_content)
    else ret tt
  else ret tt.

End Loader.

(** ** The claims in the specification's words *)

Module Spec.

(** The last path segment of a dotted identifier: what follows its last
    ['.'], the whole identifier when it has none. *)
Definition last_segment (ident : string) : string :=
  List.last (split "." ident) EmptyString.

(** The title before a kind suffix is appended. *)
Definition pre_suffix_title (ident : string) (intrinsic_name : option string) : string :=
  let t := match intrinsic_name with
           | Some n => n
           | None => last_segment ident
           end in
  if String.eqb t "__init__" then "Constructor __init__" else t.

(** The ordered rules of the kind classification. *)
Definition suffix_rules (obj : PyObj) (scope : option PyObj) : list (bool * string) :=
  [ (isnamedtuple obj, " namedtuple");
    (py_isclass obj, " class");
    (py_callable obj && negb (isclass_opt scope), " function") ].

(** The first matching rule wins; no rule, no suffix. *)
Fixpoint first_match (rules : list (bool * string)) : string :=
  match rules with
  | [] => EmptyString
  | (true, suffix) :: _ => suffix
  | (false, _) :: rest => first_match rest
  end.

Definition title_suffix (obj : PyObj) (scope : option PyObj) : string :=
  first_match (suffix_rules obj scope).

(** The fenced code block put in front of the content. *)
Definition fenced (sig : string) : string :=
  "```python" ++ nl ++ sig ++ nl ++ "```" ++ nl.

(** The dotted name of a signature. *)
Definition dotted_name (module_name owner_name : option string) (own_name : string) : string :=
  join "."
    ((match module_name with Some m => [m] | None => [] end) ++
     (match owner_name with Some c => [c] | None => [] end) ++
     (if String.eqb own_name "__init__" then [] else [own_name]))%list.

(** The parameter list of an [ArgSpec]: the names, the last ones with
    their defaults, then the variadic positional and the variadic keyword
    parameter. *)
Fixpoint with_defaults (names defaults : list string) : list string :=
  match names, defaults with
  | n :: ns, d :: ds => (n ++ "=" ++ d) :: with_defaults ns ds
  | ns, [] => ns
  | [], _ => []
  end.

Definition argspec_items (a : ArgSpec) : list string :=
  let defaults := match argspec_defaults a with Some ds => ds | None => [] end in
  let k := (List.length (argspec_args a) - List.length defaults)%nat in
  (firstn k (argspec_args a) ++
   with_defaults (skipn k (argspec_args a)) defaults ++
   (match argspec_varargs a with
    | Some v => if String.eqb v EmptyString then [] else [String.append "*" v]
    | None => []
    end) ++
   (match argspec_keywords a with
    | Some v => if String.eqb v EmptyString then [] else [String.append "**" v]
    | None => []
    end))%list.

(** [g] is the longest common prefix of the strings of [xs]. *)
Definition longest_common_prefix (g : string) (xs : list string) : Prop :=
  (forall x, In x xs -> startswith g x = true) /\
  (forall p, (forall x, In x xs -> startswith p x = true) -> startswith p g = true).

(** What [dedent] does to one line, given the margin. *)
Definition dedent_line (margin l : string) : string :=
  if whitespace_only l then EmptyString else drop (String.length margin) l.

(** The margin of a text: the longest run of spaces and tabs that starts
    every line which is not whitespace only. *)
Definition is_margin (margin : string) (lines : list string) : Prop :=
  whitespace_only margin = true /\
  (forall l, In l lines -> whitespace_only l = false -> startswith margin l = true) /\
  (forall p, whitespace_only p = true ->
             (exists l, In l lines /\ whitespace_only l = false) ->
             (forall l, In l lines -> whitespace_only l = false -> startswith p l = true) ->
             startswith p margin = true).

(** An [ArgSpec] as [getargspec] builds it: no more defaults than names. *)
Definition argspec_wf (a : ArgSpec) : Prop :=
  match argspec_defaults a with
  | Some ds => (List.length ds <= List.length (argspec_args a))%nat
  | None => True
  end.

(** The name of the owner class, when there is an owner and it has one. *)
Definition owner_name (owner : option PyObj) : option string :=
  match owner with
  | Some c => py_name c
  | None => None
  end.

(** The text after [->] of a signature with a return annotation. *)
Definition return_text (sg : Signature) : string :=
  match sig_return_annotation sg with
  | Some anno => " -> " ++ anno
  | None => EmptyString
  end.

(** The last character of a string. *)
Fixpoint last_char (s : string) : option ascii :=
  match s with
  | EmptyString => None
  | String c EmptyString => Some c
  | String _ s' => last_char s'
  end.

(** A section whose three output fields are set. *)
Definition populated (s : PySection) : Prop :=
  title s <> None /\ content s <> None /\ loader_context s <> None.

(** A section none of whose three output fields is set. *)
Definition fresh (s : PySection) : Prop :=
  title s = None /\ content s = None /\ loader_context s = None.


(** The text of the parameters, from whichever reflective query the
    running Python has. *)
Definition parameters_text (has_inspect_signature : bool) (function : PyObj) : result string :=
  if has_inspect_signature
  then sg <~ py_signature function ;; Ok (str_Signature sg)
  else argspec <~ py_argspec function ;; argspec_signature argspec.

(** A parameter without annotation. *)
Definition plain_param (kind : ParameterKind) (name : string) (default : option string) : Param :=
  {| param_name := name; param_kind := kind;
     param_default := default; param_annotation := None |}.

(** The last names paired with the defaults, the others without. *)
Fixpoint defaulted_params (names defaults : list string) : list Param :=
  match names, defaults with
  | n :: ns, d :: ds => plain_param POSITIONAL_OR_KEYWORD n (Some d) :: defaulted_params ns ds
  | ns, [] => map (fun n => plain_param POSITIONAL_OR_KEYWORD n None) ns
  | [], _ => []
  end.

(** The [Signature] of the function an [ArgSpec] describes: its names as
    positional-or-keyword parameters, the last ones with the defaults, then
    [*varargs] and [**keywords]; no annotation anywhere. *)
Definition plain_signature (a : ArgSpec) : Signature :=
  let defaults := match argspec_defaults a with Some ds => ds | None => [] end in
  let k := (List.length (argspec_args a) - List.length defaults)%nat in
  {| sig_parameters :=
       (map (fun n => plain_param POSITIONAL_OR_KEYWORD n None) (firstn k (argspec_args a)) ++
        defaulted_params (skipn k (argspec_args a)) defaults ++
        (match argspec_varargs a with
         | Some v => [plain_param VAR_POSITIONAL v None]
         | None => []
         end) ++
        (match argspec_keywords a with
         | Some v => [plain_param VAR_KEYWORD v None]
         | None => []
         end))%list;
     sig_return_annotation := None |}.

(** A word that [dedent] can neither cut nor complete: no newline in it,
    and a first character other than space and tab. *)
Definition solid_word (w : string) : Prop :=
  ~ occurs nl_char w /\
  match w with
  | EmptyString => False
  | String c _ => is_blank_char c = false
  end.

End Spec.

(** ** Closed form of a run *)

(** [getattr(obj, '__doc__', None) or '']. *)
Definition doc_or_empty (obj : PyObj) : string :=
  match py_doc obj with
  | Some d => d
  | None => EmptyString
  end.

(** The section once title, content and loader context are written. *)
Definition loaded (ident : string) (obj : PyObj) (scope : option PyObj)
           (text : string) : PySection :=
  {| identifier := Some ident;
     title := Some (Spec.pre_suffix_title ident (py_name obj) ++ Spec.title_suffix obj scope);
     content := Some text;
     loader_context := Some {| ctx_obj := obj; ctx_scope := scope |} |}.

(** The owner class handed to [get_function_signature]. *)
Definition owner_of (scope : option PyObj) : option PyObj :=
  if isclass_opt scope then scope else None.

(** ** Objects and identifiers used as examples *)

Module Examples.

(** A module [m], the scope of its members. *)
Definition module_m : PyObj :=
  {| py_name := Some "m"; py_doc := None; py_module := None;
     py_has_fields := false; py_asdict := None;
     py_isclass := false; py_callable := false; py_truthy := true;
     py_signature := Raise TypeError; py_argspec := Raise TypeError |}.

(** [def f(a, b=2, *args, **kw)], without a docstring. *)
Definition plain_f : PyObj :=
  {| py_name := Some "f"; py_doc := None; py_module := Some "m";
     py_has_fields := false; py_asdict := None;
     py_isclass := false; py_callable := true; py_truthy := true;
     py_signature :=
       Ok {| sig_parameters :=
               [ {| param_name := "a"; param_kind := POSITIONAL_OR_KEYWORD;
                    param_default := None; param_annotation := None |};
                 {| param_name := "b"; param_kind := POSITIONAL_OR_KEYWORD;
                    param_default := Some "2"; param_annotation := None |};
                 {| param_name := "args"; param_kind := VAR_POSITIONAL;
                    param_default := None; param_annotation := None |};
                 {| param_name := "kw"; param_kind := VAR_KEYWORD;
                    param_default := None; param_annotation := None |} ];
             sig_return_annotation := None |};
     py_argspec :=
       Ok {| argspec_args := ["a"; "b"]; argspec_varargs := Some "args";
             argspec_keywords := Some "kw"; argspec_defaults := Some ["2"] |} |}.

(** [def g(a) -> int], without a docstring. *)
Definition annotated_g : PyObj :=
  {| py_name := Some "g"; py_doc := None; py_module := Some "m";
     py_has_fields := false; py_asdict := None;
     py_isclass := false; py_callable := true; py_truthy := true;
     py_signature :=
       Ok {| sig_parameters :=
               [ {| param_name := "a"; param_kind := POSITIONAL_OR_KEYWORD;
                    param_default := None; param_annotation := None |} ];
             sig_return_annotation := Some "int" |};
     py_argspec := Raise (Raised "ValueError") |}.

(** A built-in function [b] for which no signature is found:
    [inspect.signature] raises [ValueError]. *)
Definition builtin_b : PyObj :=
  {| py_name := Some "b"; py_doc := Some "Built in."; py_module := Some "m";
     py_has_fields := false; py_asdict := None;
     py_isclass := false; py_callable := true; py_truthy := true;
     py_signature := Raise (Raised "ValueError"); py_argspec := Raise TypeError |}.

(** [p = functools.partial(f, 1)]: callable, without [__name__]. *)
Definition partial_p : PyObj :=
  {| py_name := None; py_doc := Some "partial(func, *args, **keywords)";
     py_module := None;
     py_has_fields := false; py_asdict := None;
     py_isclass := false; py_callable := true; py_truthy := true;
     py_signature :=
       Ok {| sig_parameters :=
               [ {| param_name := "b"; param_kind := POSITIONAL_OR_KEYWORD;
                    param_default := Some "2"; param_annotation := None |} ];
             sig_return_annotation := None |};
     py_argspec := Raise TypeError |}.

(** A function [r()] that carries the attributes [_fields] and
    [_asdict], the latter callable. *)
Definition record_like : PyObj :=
  {| py_name := Some "r"; py_doc := Some "A record."; py_module := Some "m";
     py_has_fields := true; py_asdict := Some true;
     py_isclass := false; py_callable := true; py_truthy := true;
     py_signature := Ok {| sig_parameters := []; sig_return_annotation := None |};
     py_argspec :=
       Ok {| argspec_args := []; argspec_varargs := None;
             argspec_keywords := None; argspec_defaults := None |} |}.

(** The docstring of [h]: the summary on the line of the opening quotes,
    the rest indented with the body, the closing quotes on a line of
    their own. *)
Definition doc_h : string :=
  "Foo" ++ nl ++ "    bar" ++ nl ++ "    ".

(** A constant [h] of the module whose [__doc__] is [doc_h]. *)
Definition documented_h : PyObj :=
  {| py_name := None; py_doc := Some doc_h; py_module := Some "m";
     py_has_fields := false; py_asdict := None;
     py_isclass := false; py_callable := false; py_truthy := true;
     py_signature := Raise TypeError; py_argspec := Raise TypeError |}.

(** An object [u] that is not callable and whose [__name__] is the
    empty string, such as [types.ModuleType('')]. *)
Definition unnamed_u : PyObj :=
  {| py_name := Some EmptyString; py_doc := None; py_module := None;
     py_has_fields := false; py_asdict := None;
     py_isclass := false; py_callable := false; py_truthy := true;
     py_signature := Raise TypeError; py_argspec := Raise TypeError |}.

(** [Point = collections.namedtuple('Point', 'x y')]: a class with
    [_fields] and the method [_asdict]; its generated docstring is
    [Point(x, y)]. *)
Definition namedtuple_Point : PyObj :=
  {| py_name := Some "Point"; py_doc := Some "Point(x, y)"; py_module := Some "m";
     py_has_fields := true; py_asdict := Some true;
     py_isclass := true; py_callable := true; py_truthy := true;
     py_signature :=
       Ok {| sig_parameters :=
               [ {| param_name := "x"; param_kind := POSITIONAL_OR_KEYWORD;
                    param_default := None; param_annotation := None |};
                 {| param_name := "y"; param_kind := POSITIONAL_OR_KEYWORD;
                    param_default := None; param_annotation := None |} ];
             sig_return_annotation := None |};
     py_argspec := Raise TypeError |}.

(** A class [K] and its method [__init__(self, x=None)]. *)
Definition class_K : PyObj :=
  {| py_name := Some "K"; py_doc := Some "A class."; py_module := Some "m";
     py_has_fields := false; py_asdict := None;
     py_isclass := true; py_callable := true; py_truthy := true;
     py_signature :=
       Ok {| sig_parameters :=
               [ {| param_name := "x"; param_kind := POSITIONAL_OR_KEYWORD;
                    param_default := Some "None"; param_annotation := None |} ];
             sig_return_annotation := None |};
     py_argspec := Raise TypeError |}.

Definition method_init : PyObj :=
  {| py_name := Some "__init__"; py_doc := None; py_module := Some "m";
     py_has_fields := false; py_asdict := None;
     py_isclass := false; py_callable := true; py_truthy := true;
     py_signature :=
       Ok {| sig_parameters :=
               [ {| param_name := "self"; param_kind := POSITIONAL_OR_KEYWORD;
                    param_default := None; param_annotation := None |};
                 {| param_name := "x"; param_kind := POSITIONAL_OR_KEYWORD;
                    param_default := Some "None"; param_annotation := None |} ];
             sig_return_annotation := None |};
     py_argspec :=
       Ok {| argspec_args := ["self"; "x"]; argspec_varargs := None;
             argspec_keywords := None; argspec_defaults := Some ["None"] |} |}.

(** The docstring of [o]: every line indented, one line of two spaces. *)
Definition doc_o : string :=
  "    a" ++ nl ++ "      b" ++ nl ++ "  " ++ nl ++ "    c".

(** A constant [o] of the module whose [__doc__] is [doc_o]. *)
Definition indented_o : PyObj :=
  {| py_name := None; py_doc := Some doc_o; py_module := None;
     py_has_fields := false; py_asdict := None;
     py_isclass := false; py_callable := false; py_truthy := true;
     py_signature := Raise TypeError; py_argspec := Raise TypeError |}.

(** The resolver of the examples. *)
Definition resolver (ident : string) : result (PyObj * option PyObj) :=
  if String.eqb ident "m.f" then Ok (plain_f, Some module_m)
  else if String.eqb ident "m.Point" then Ok (namedtuple_Point, Some module_m)
  else if String.eqb ident "m.K" then Ok (class_K, Some module_m)
  else if String.eqb ident "m.K.__init__" then Ok (method_init, Some class_K)
  else if String.eqb ident "m.o" then Ok (indented_o, Some module_m)
  else if String.eqb ident "m.g" then Ok (annotated_g, Some module_m)
  else if String.eqb ident "m.b" then Ok (builtin_b, Some module_m)
  else if String.eqb ident "m.p" then Ok (partial_p, Some module_m)
  else if String.eqb ident "m.r" then Ok (record_like, Some module_m)
  else if String.eqb ident "m.h" then Ok (documented_h, Some module_m)
  else if String.eqb ident "m.u" then Ok (unnamed_u, Some module_m)
  else Raise (Raised "ValueError").

(** A section as its caller creates it: the identifier only. *)
Definition fresh_section (ident : string) : PySection :=
  {| identifier := Some ident; title := None; content := None;
     loader_context := None |}.

End Examples.

(** ** More objects, sections and resolvers *)

Module MoreExamples.

(** A class [C] written in C without a text signature: [inspect.signature]
    raises [ValueError]. *)
Definition class_C : PyObj :=
  {| py_name := Some "C"; py_doc := Some "A type."; py_module := Some "m";
     py_has_fields := false; py_asdict := None;
     py_isclass := true; py_callable := true; py_truthy := true;
     py_signature := Raise (Raised "ValueError"); py_argspec := Raise TypeError |}.

(** A function [make] whose docstring mentions the word, and for which no
    signature is found. *)
Definition function_make : PyObj :=
  {| py_name := Some "make"; py_doc := Some "    Return a namedtuple.";
     py_module := Some "m";
     py_has_fields := false; py_asdict := None;
     py_isclass := false; py_callable := true; py_truthy := true;
     py_signature := Raise (Raised "ValueError"); py_argspec := Raise TypeError |}.

(** The method [K.run(self)] of the class [K]. *)
Definition method_run : PyObj :=
  {| py_name := Some "run"; py_doc := Some "Run."; py_module := Some "m";
     py_has_fields := false; py_asdict := None;
     py_isclass := false; py_callable := true; py_truthy := true;
     py_signature :=
       Ok {| sig_parameters :=
               [ {| param_name := "self"; param_kind := POSITIONAL_OR_KEYWORD;
                    param_default := None; param_annotation := None |} ];
             sig_return_annotation := None |};
     py_argspec :=
       Ok {| argspec_args := ["self"]; argspec_varargs := None;
             argspec_keywords := None; argspec_defaults := None |} |}.

Definition resolver (ident : string) : result (PyObj * option PyObj) :=
  if String.eqb ident "m.C" then Ok (class_C, Some Examples.module_m)
  else if String.eqb ident "m.make" then Ok (function_make, Some Examples.module_m)
  else if String.eqb ident "m.K.run" then Ok (method_run, Some Examples.class_K)
  else Examples.resolver ident.


End MoreExamples.

(** ** Facts on strings *)

Lemma startswith_refl (s : string) : startswith s s = true.
Proof.
  induction s as [|a s IH]; simpl; [reflexivity|].
  now rewrite Ascii.eqb_refl, IH.
Qed.

Lemma startswith_split (p s : string) :
  startswith p s = true -> s = p ++ drop (String.length p) s.
Proof.
  revert s; induction p as [|a p IH]; intros [|b s]; simpl; try easy.
  intros H. apply andb_true_iff in H as [Hab Hps].
  apply Ascii.eqb_eq in Hab; subst b. f_equal. now apply IH.
Qed.

Lemma startswith_trans (p q s : string) :
  startswith p q = true -> startswith q s = true -> startswith p s = true.
Proof.
  revert q s; induction p as [|a p IH]; intros [|b q] [|c s]; simpl; try easy.
  intros H1 H2.
  apply andb_true_iff in H1 as [Hab Hpq]. apply andb_true_iff in H2 as [Hbc Hqs].
  apply Ascii.eqb_eq in Hab, Hbc; subst.
  rewrite Ascii.eqb_refl; simpl. eapply IH; eassumption.
Qed.

Lemma append_empty_r (s : string) : s ++ EmptyString = s.
Proof. induction s as [|a s IH]; simpl; [reflexivity|now rewrite IH]. Qed.

Lemma append_assoc (a b c : string) : (a ++ b) ++ c = a ++ b ++ c.
Proof. induction a as [|x a IH]; simpl; [reflexivity|now rewrite IH]. Qed.

Lemma length_append (a b : string) :
  String.length (a ++ b) = (String.length a + String.length b)%nat.
Proof. induction a as [|x a IH]; simpl; [reflexivity|now rewrite IH]. Qed.

(** [c in s] as computed agrees with the proposition. *)
Lemma contains_char (c : ascii) (s : string) :
  contains (String c EmptyString) s = true <-> occurs c s.
Proof.
  induction s as [|a s IH]; simpl.
  - split; [discriminate|tauto].
  - rewrite orb_true_iff, IH, andb_true_iff, Ascii.eqb_eq.
    destruct s; simpl; intuition congruence.
Qed.

Lemma rsplit1_pair_not_occurs (c : ascii) (s : string) :
  ~ occurs c s -> rsplit1_pair c s = None.
Proof.
  induction s as [|a s IH]; simpl; [reflexivity|].
  intros H. rewrite IH by tauto.
  destruct (Ascii.eqb a c) eqn:E; [|reflexivity].
  apply Ascii.eqb_eq in E. tauto.
Qed.

Lemma rsplit1_pair_none (c : ascii) (s : string) :
  rsplit1_pair c s = None -> ~ occurs c s.
Proof.
  induction s as [|a s IH]; simpl; [tauto|].
  destruct (rsplit1_pair c s) as [[h t]|]; [discriminate|].
  destruct (Ascii.eqb a c) eqn:E; [discriminate|].
  apply Ascii.eqb_neq in E. intros _ [H|H]; [easy|]. now apply IH.
Qed.

Lemma rsplit1_pair_some (c : ascii) (s h t : string) :
  rsplit1_pair c s = Some (h, t) -> s = h ++ String c t /\ ~ occurs c t.
Proof.
  revert h t; induction s as [|a s IH]; simpl; intros h t; [discriminate|].
  destruct (rsplit1_pair c s) as [[h' t']|] eqn:R.
  - intros [= <- <-]. destruct (IH _ _ eq_refl) as [-> Ht]. now split.
  - destruct (Ascii.eqb a c) eqn:E; [|discriminate].
    apply Ascii.eqb_eq in E; subst a. intros [= <- <-].
    split; [reflexivity|]. now apply rsplit1_pair_none.
Qed.

Lemma rsplit1_pair_split (c : ascii) (h t : string) :
  ~ occurs c t -> rsplit1_pair c (h ++ String c t) = Some (h, t).
Proof.
  intros Ht. induction h as [|a h IH]; simpl.
  - now rewrite (rsplit1_pair_not_occurs _ _ Ht), Ascii.eqb_refl.
  - now rewrite IH.
Qed.

(** [split] and its last element. *)
Lemma split_not_nil (c : ascii) (s : string) : split c s <> [].
Proof.
  destruct s as [|a s]; simpl; [discriminate|].
  destruct (Ascii.eqb a c); [discriminate|].
  destruct (split c s); discriminate.
Qed.

Lemma split_not_occurs (c : ascii) (s : string) :
  ~ occurs c s -> split c s = [s].
Proof.
  induction s as [|a s IH]; simpl; [reflexivity|].
  intros H. destruct (Ascii.eqb a c) eqn:E.
  - apply Ascii.eqb_eq in E. tauto.
  - rewrite IH by tauto. reflexivity.
Qed.

Lemma split_append (c : ascii) (h t : string) :
  split c (h ++ String c t) = (split c h ++ split c t)%list.
Proof.
  induction h as [|a h IH]; simpl.
  - now rewrite Ascii.eqb_refl.
  - destruct (Ascii.eqb a c); rewrite IH; [reflexivity|].
    pose proof (split_not_nil c h). destruct (split c h); [easy|reflexivity].
Qed.

Lemma last_append_not_nil {A} (xs ys : list A) (d : A) :
  ys <> [] -> List.last (xs ++ ys) d = List.last ys d.
Proof.
  intros Hy. induction xs as [|x xs IH]; simpl; [reflexivity|].
  rewrite <- IH. destruct (xs ++ ys)%list eqn:E; [|reflexivity].
  apply app_eq_nil in E. tauto.
Qed.

(** The two readings of the default title agree: what [rsplit] yields at
    index 1 is the last path segment. *)
Lemma last_segment_rsplit (ident : string) :
  Spec.last_segment ident =
  match rsplit1_pair "." ident with
  | Some (_, t) => t
  | None => ident
  end.
Proof.
  unfold Spec.last_segment.
  destruct (rsplit1_pair "." ident) as [[h t]|] eqn:R.
  - apply rsplit1_pair_some in R as [-> Ht].
    rewrite split_append, last_append_not_nil by apply split_not_nil.
    now rewrite (split_not_occurs _ _ Ht).
  - apply rsplit1_pair_none in R. now rewrite (split_not_occurs _ _ R).
Qed.

(** ** Runs of [load_section] *)

Section Runs.

Variable has_inspect_signature : bool.
Variable import_object_with_scope : string -> result (PyObj * option PyObj).

Let run := load_section has_inspect_signature import_object_with_scope.
Let signature_of := get_function_signature has_inspect_signature.

(** The default title never raises: the index 1 exists whenever the
    identifier has a dot. *)
Lemma default_title_ok (ident : string) (s : PySection) :
  (if contains "." ident
   then lift (getitem (rsplit1 "." ident) 1)
   else ret ident) s = (Ok (Spec.last_segment ident), s).
Proof.
  rewrite last_segment_rsplit.
  destruct (contains "." ident) eqn:C.
  - apply contains_char in C. unfold rsplit1.
    destruct (rsplit1_pair "." ident) as [[h t]|] eqn:R; [reflexivity|].
    now apply rsplit1_pair_none in R.
  - assert (H : ~ occurs "." ident).
    { intros H. apply contains_char in H. congruence. }
    now rewrite (rsplit1_pair_not_occurs _ _ H).
Qed.

(** A failed precondition or resolution leaves the section as it was. *)
Lemma run_no_identifier (s : PySection) :
  identifier s = None -> run s = (Raise AssertionError, s).
Proof.
  intros H. unfold run, load_section, bind, get_identifier. now rewrite H.
Qed.

Lemma run_unresolved (s : PySection) (ident : string) (e : exn) :
  identifier s = Some ident ->
  import_object_with_scope ident = Raise e ->
  run s = (Raise e, s).
Proof.
  intros H R. unfold run, load_section, bind, get_identifier, lift, ret.
  now rewrite H, R.
Qed.

(** After a successful resolution. *)
Lemma run_resolved (s : PySection) (ident : string) (obj : PyObj) (scope : option PyObj) :
  identifier s = Some ident ->
  import_object_with_scope ident = Ok (obj, scope) ->
  run s =
  let text := dedent (doc_or_empty obj) in
  if py_callable obj && negb (contains "namedtuple" text)
  then match signature_of obj (owner_of scope) false with
       | Raise e => (Raise e, loaded ident obj scope text)
       | Ok sig =>
           if py_isclass obj then (Ok tt, loaded ident obj scope text)
           else (Ok tt, loaded ident obj scope (Spec.fenced sig ++ text))
       end
  else (Ok tt, loaded ident obj scope text).
Proof.
  intros H R. unfold run, load_section.
  unfold bind at 1. unfold get_identifier. rewrite H.
  unfold bind at 1. unfold ret at 1.
  unfold bind at 1. unfold lift at 1. rewrite R.
  unfold bind at 1. rewrite default_title_ok. cbn [fst snd].
  fold (doc_or_empty obj). fold (owner_of scope).
  fold (Spec.pre_suffix_title ident (py_name obj)).
  set (t := Spec.pre_suffix_title ident (py_name obj)).
  set (text := dedent (doc_or_empty obj)).
  unfold signature_of, loaded, Spec.title_suffix, Spec.suffix_rules, Spec.fenced.
  fold t. clearbody t text.
  generalize (get_function_signature has_inspect_signature obj (owner_of scope) false).
  intros computed.
  unfold bind, set_title, set_content, set_loader_context, append_title,
    get_title, get_content, lift, ret; cbn.
  destruct (isnamedtuple obj), (py_isclass obj), (py_callable obj),
    (isclass_opt scope); cbn; rewrite ?H, ?append_empty_r;
    try destruct (contains "namedtuple" text); cbn;
    try destruct computed; cbn;
    rewrite ?append_assoc; cbn; reflexivity.
Qed.

End Runs.

(** ** Facts on [dedent] *)

Section Dedent.

Lemma concat_cons (sep x : string) (xs : list string) :
  xs <> [] -> join sep (x :: xs) = x ++ sep ++ join sep xs.
Proof. destruct xs; [easy|reflexivity]. Qed.

Lemma concat_String (sep : string) (a : ascii) (l : string) (ls : list string) :
  join sep (String a l :: ls) = String a (join sep (l :: ls)).
Proof. destruct ls; reflexivity. Qed.

(** Joining the lines of a text gives the text back. *)
Lemma join_split (s : string) : join nl (split nl_char s) = s.
Proof.
  induction s as [|a s IH]; [reflexivity|]. simpl split.
  destruct (Ascii.eqb a nl_char) eqn:E.
  - apply Ascii.eqb_eq in E; subst a.
    rewrite concat_cons by apply split_not_nil. now rewrite IH.
  - pose proof (split_not_nil nl_char s) as Hn.
    destruct (split nl_char s) as [|l ls]; [easy|].
    now rewrite concat_String, IH.
Qed.

Lemma whitespace_only_prefix (p s : string) :
  whitespace_only s = true -> startswith p s = true -> whitespace_only p = true.
Proof.
  revert s; induction p as [|a p IH]; intros [|b s]; simpl; try easy.
  intros Hs Hp.
  apply andb_true_iff in Hs as [Hb Hs]. apply andb_true_iff in Hp as [Hab Hp].
  apply Ascii.eqb_eq in Hab; subst b. rewrite Hb; simpl. eapply IH; eassumption.
Qed.

Lemma leading_whitespace_prefix (l : string) :
  startswith (leading_whitespace l) l = true.
Proof.
  induction l as [|c l IH]; simpl; [reflexivity|].
  destruct (is_blank_char c); simpl; [|reflexivity].
  now rewrite Ascii.eqb_refl.
Qed.

Lemma leading_whitespace_only (l : string) :
  whitespace_only (leading_whitespace l) = true.
Proof.
  induction l as [|c l IH]; simpl; [reflexivity|].
  destruct (is_blank_char c) eqn:E; simpl; [|reflexivity].
  now rewrite E.
Qed.

Lemma leading_whitespace_longest (p l : string) :
  whitespace_only p = true -> startswith p l = true ->
  startswith p (leading_whitespace l) = true.
Proof.
  revert l; induction p as [|a p IH]; intros [|b l]; simpl; try easy.
  intros Hp Hl.
  apply andb_true_iff in Hp as [Ha Hp]. apply andb_true_iff in Hl as [Hab Hl].
  apply Ascii.eqb_eq in Hab; subst b. rewrite Ha. simpl.
  rewrite Ascii.eqb_refl. simpl. now apply IH.
Qed.

Lemma cut_at_mismatch_common (m i : string) :
  startswith m i = false -> startswith i m = false ->
  Spec.longest_common_prefix (cut_at_mismatch m i) [m; i].
Proof.
  revert i; induction m as [|x m IH]; intros [|y i]; simpl; try easy.
  destruct (Ascii.eqb x y) eqn:E.
  - apply Ascii.eqb_eq in E; subst y. rewrite Ascii.eqb_refl. simpl.
    intros H1 H2. destruct (IH _ H1 H2) as [Hc Hm]. split.
    + intros z [<-|[<-|[]]]; simpl; rewrite Ascii.eqb_refl; simpl;
        apply Hc; simpl; tauto.
    + intros [|a p] Hp; [reflexivity|].
      pose proof (Hp _ (or_introl eq_refl)) as P1.
      pose proof (Hp _ (or_intror (or_introl eq_refl))) as P2.
      simpl in P1, P2 |- *.
      apply andb_true_iff in P1 as [Q1 P1]. apply andb_true_iff in P2 as [_ P2].
      rewrite Q1. simpl. apply Hm. intros z [<-|[<-|[]]]; assumption.
  - intros _ _. split.
    + intros z _. reflexivity.
    + intros [|a p] Hp; [reflexivity|].
      pose proof (Hp _ (or_introl eq_refl)) as P1.
      pose proof (Hp _ (or_intror (or_introl eq_refl))) as P2.
      simpl in P1, P2.
      apply andb_true_iff in P1 as [Q1 _]. apply andb_true_iff in P2 as [Q2 _].
      apply Ascii.eqb_eq in Q1, Q2. apply Ascii.eqb_neq in E. congruence.
Qed.

(** One round of the loop keeps the longest common prefix of the
    winner so far and the indent. *)
Lemma margin_step_common (m i : string) :
  exists g, margin_step (Some m) i = Some g /\ Spec.longest_common_prefix g [m; i].
Proof.
  unfold margin_step.
  destruct (startswith m i) eqn:E1; [|destruct (startswith i m) eqn:E2].
  - exists m. split; [reflexivity|]. split.
    + intros z [<-|[<-|[]]]; [apply startswith_refl|assumption].
    + intros p Hp. apply Hp. simpl; tauto.
  - exists i. split; [reflexivity|]. split.
    + intros z [<-|[<-|[]]]; [assumption|apply startswith_refl].
    + intros p Hp. apply Hp. simpl; tauto.
  - eexists. split; [reflexivity|]. now apply cut_at_mismatch_common.
Qed.

Lemma fold_margin_step (ins : list string) (m : string) :
  exists g, fold_left margin_step ins (Some m) = Some g /\
            Spec.longest_common_prefix g (m :: ins).
Proof.
  revert m; induction ins as [|i ins IH]; intros m; cbn [fold_left].
  - exists m. split; [reflexivity|]. split.
    + intros z [<-|[]]. apply startswith_refl.
    + intros p Hp. apply Hp. simpl; tauto.
  - destruct (margin_step_common m i) as (g & -> & Hg1 & Hg2).
    destruct (IH g) as (g' & -> & Hc & Hl).
    exists g'. split; [reflexivity|]. split.
    + intros z [<-|[<-|Hz]].
      * eapply startswith_trans; [apply Hc; simpl; tauto|apply Hg1; simpl; tauto].
      * eapply startswith_trans; [apply Hc; simpl; tauto|apply Hg1; simpl; tauto].
      * apply Hc. simpl; tauto.
    + intros p Hp. apply Hl. intros z [<-|Hz].
      * apply Hg2. intros y [<-|[<-|[]]]; apply Hp; simpl; tauto.
      * apply Hp. simpl; tauto.
Qed.

Lemma indents_blank_out (lines : list string) :
  indents (map blank_out lines) = indents lines.
Proof.
  unfold indents. f_equal.
  induction lines as [|l lines IH]; cbn [map filter]; [reflexivity|].
  rewrite IH. unfold blank_out.
  destruct (whitespace_only l) eqn:E; cbn; [reflexivity|now rewrite E].
Qed.

Lemma In_indents (x : string) (lines : list string) :
  In x (indents lines) <->
  exists l, In l lines /\ whitespace_only l = false /\ x = leading_whitespace l.
Proof.
  unfold indents. rewrite in_map_iff. split.
  - intros (l & <- & Hl). apply filter_In in Hl as [Hl Hw].
    exists l. apply negb_true_iff in Hw. tauto.
  - intros (l & Hl & Hw & ->). exists l. split; [reflexivity|].
    apply filter_In. rewrite Hw. tauto.
Qed.

Lemma drop_0 (s : string) : drop 0 s = s.
Proof. destruct s; reflexivity. Qed.

Lemma map_blank_out (lines : list string) :
  map blank_out lines = map (Spec.dedent_line EmptyString) lines.
Proof.
  apply map_ext. intros l. unfold blank_out, Spec.dedent_line.
  destruct (whitespace_only l); [reflexivity|now rewrite drop_0].
Qed.

(** On a line that is not whitespace only, [dedent_line] takes the margin
    away from the front. *)
Lemma dedent_line_removes_margin (margin : string) (lines : list string) (l : string) :
  Spec.is_margin margin lines -> In l lines -> whitespace_only l = false ->
  l = margin ++ Spec.dedent_line margin l.
Proof.
  intros (_ & Hpre & _) Hl Hw. unfold Spec.dedent_line. rewrite Hw.
  apply startswith_split. now apply Hpre.
Qed.

Lemma dedent_spec (text : string) :
  exists margin,
    Spec.is_margin margin (split nl_char text) /\
    dedent text = join nl (map (Spec.dedent_line margin) (split nl_char text)).
Proof.
  unfold dedent, margin_of. rewrite indents_blank_out.
  set (lines := split nl_char text).
  destruct (indents lines) as [|i ins] eqn:I.
  - exists EmptyString. simpl. split; [|now rewrite map_blank_out].
    split; [reflexivity|]. split; [reflexivity|].
    intros p _ (l & Hl & Hw) _. exfalso.
    assert (In (leading_whitespace l) (indents lines)) as Hin
        by (apply In_indents; eauto).
    now rewrite I in Hin.
  - simpl. destruct (fold_margin_step ins i) as (g & -> & Hc & Hlong).
    assert (Hg : Spec.is_margin g lines).
    { split; [|split].
      - assert (In i (indents lines)) as Hi by (rewrite I; simpl; tauto).
        apply In_indents in Hi as (l & _ & _ & E).
        apply whitespace_only_prefix with (s := i).
        + rewrite E. apply leading_whitespace_only.
        + apply Hc. simpl; tauto.
      - intros l Hl Hw. eapply startswith_trans; [|apply leading_whitespace_prefix].
        apply Hc. rewrite <- I. apply In_indents; eauto.
      - intros p Hp _ Hall. apply Hlong. intros x Hx.
        rewrite <- I in Hx. apply In_indents in Hx as (l & Hl & Hw & ->).
        apply leading_whitespace_longest; auto. }
    exists g. split; [assumption|].
    destruct g as [|c g]; [now rewrite map_blank_out|].
    f_equal. rewrite map_map. apply map_ext_in. intros l Hl.
    unfold blank_out, Spec.dedent_line, remove_margin.
    destruct (whitespace_only l) eqn:Hw; [reflexivity|].
    destruct Hg as (_ & Hpre & _). now rewrite (Hpre _ Hl Hw).
Qed.

(** Without a margin to remove and without a line of spaces and tabs,
    the lines are unchanged. *)
Lemma dedent_line_unchanged (lines : list string) :
  (forall l, In l lines -> whitespace_only l = true -> l = EmptyString) ->
  map (Spec.dedent_line EmptyString) lines = lines.
Proof.
  intros Hb. rewrite <- (map_id lines) at 2. apply map_ext_in.
  intros l Hl. unfold Spec.dedent_line.
  destruct (whitespace_only l) eqn:Hw; [now rewrite (Hb _ Hl Hw)|apply drop_0].
Qed.

End Dedent.

(** ** Facts on the [getargspec] branch *)

Section Legacy.

Lemma with_defaults_nil (names : list string) : Spec.with_defaults names [] = names.
Proof. destruct names; reflexivity. Qed.

Lemma py_index_length (len n : nat) :
  (n < len)%nat -> py_index len (Z.of_nat n) = Some n.
Proof.
  intros H. unfold py_index.
  replace (0 <=? Z.of_nat n)%Z with true by (symmetry; apply Z.leb_le; lia).
  replace (Z.of_nat n <? Z.of_nat len)%Z with true by (symmetry; apply Z.ltb_lt; lia).
  simpl. now rewrite Nat2Z.id.
Qed.

Lemma list_set_middle {A} (pre : list A) (x v : A) (post : list A) :
  list_set (pre ++ x :: post) (List.length pre) v = (pre ++ v :: post)%list.
Proof. induction pre as [|y pre IH]; simpl; [reflexivity|now rewrite IH]. Qed.

(** The loop writes [name=default] over the names from [offset] on. *)
Lemma fill_defaults_spec (defaults pre mid : list string) (offset : Z) (i : nat) :
  (Z.of_nat i + offset)%Z = Z.of_nat (List.length pre) ->
  (List.length defaults <= List.length mid)%nat ->
  fill_defaults (pre ++ mid) offset i defaults =
  Ok (pre ++ Spec.with_defaults mid defaults)%list.
Proof.
  revert pre mid i; induction defaults as [|d ds IH]; intros pre mid i Hi Hlen.
  - simpl. now rewrite with_defaults_nil.
  - destruct mid as [|m mid]; [simpl in Hlen; lia|].
    cbn [fill_defaults]. rewrite Hi.
    unfold getitem_z, setitem_z, getitem.
    rewrite py_index_length by (rewrite length_app; simpl; lia).
    rewrite nth_error_app2, Nat.sub_diag by lia. cbn [nth_error rbind].
    rewrite list_set_middle.
    replace (pre ++ (m ++ "=" ++ d)%string :: mid)%list
      with ((pre ++ [(m ++ "=" ++ d)%string]) ++ mid)%list
      by (now rewrite <- app_assoc).
    rewrite IH.
    + now rewrite <- app_assoc.
    + rewrite length_app. cbn [List.length]. lia.
    + cbn [List.length] in Hlen. lia.
Qed.

Lemma argspec_signature_spec (a : ArgSpec) :
  Spec.argspec_wf a ->
  argspec_signature a = Ok ("(" ++ join ", " (Spec.argspec_items a) ++ ")").
Proof.
  unfold Spec.argspec_wf, argspec_signature, Spec.argspec_items.
  set (args := argspec_args a).
  assert (Hplain : forall ds, ds = [] ->
            (firstn (List.length args - List.length ds) args ++
             Spec.with_defaults (skipn (List.length args - List.length ds) args) ds)%list
            = args).
  { intros ds ->. simpl. rewrite Nat.sub_0_r, firstn_all, skipn_all. simpl.
    apply app_nil_r. }
  intros Hwf.
  assert (Hfill :
    match argspec_defaults a with
    | Some (d :: ds) =>
        fill_defaults args (Z.of_nat (List.length args)
                            - Z.of_nat (List.length (d :: ds)))%Z 0 (d :: ds)
    | _ => Ok args
    end =
    Ok (let defaults := match argspec_defaults a with Some ds => ds | None => [] end in
        firstn (List.length args - List.length defaults) args ++
        Spec.with_defaults (skipn (List.length args - List.length defaults) args)
          defaults)%list).
  { destruct (argspec_defaults a) as [[|d ds]|].
    - cbv zeta. now rewrite Hplain.
    - cbv zeta. set (k := (List.length args - List.length (d :: ds))%nat).
      rewrite <- (firstn_skipn k args) at 1.
      apply fill_defaults_spec.
      + rewrite length_firstn. unfold k. lia.
      + rewrite length_skipn. unfold k. lia.
    - cbv zeta. now rewrite Hplain. }
  rewrite Hfill. cbv zeta. cbn [rbind].
  set (front := (firstn _ args ++ Spec.with_defaults _ _)%list).
  unfold truthy_str.
  destruct (argspec_varargs a) as [v|], (argspec_keywords a) as [k|];
    try destruct (String.eqb v EmptyString); try destruct (String.eqb k EmptyString);
    cbn [negb]; subst front; rewrite <- ?app_assoc; cbn [app];
    rewrite ?app_nil_r; reflexivity.
Qed.

End Legacy.

(** ** Runs on the examples *)

Example run_plain_f (has_inspect_signature : bool) :
  let after := snd (load_section has_inspect_signature Examples.resolver
                      (Examples.fresh_section "m.f")) in
  title after = Some "f function" /\
  content after = Some ("```python" ++ nl ++ "f(a, b=2, *args, **kw)" ++ nl ++ "```" ++ nl).
Proof. destruct has_inspect_signature; split; reflexivity. Qed.

Example run_class_K :
  let run := load_section true Examples.resolver (Examples.fresh_section "m.K") in
  fst run = Ok tt /\
  title (snd run) = Some "K class" /\
  content (snd run) = Some "A class.".
Proof. repeat split. Qed.

Example run_method_init (has_inspect_signature : bool) :
  let after := snd (load_section has_inspect_signature Examples.resolver
                      (Examples.fresh_section "m.K.__init__")) in
  title after = Some "Constructor __init__" /\
  content after = Some ("```python" ++ nl ++ "K(self, x=None)" ++ nl ++ "```" ++ nl).
Proof. destruct has_inspect_signature; split; reflexivity. Qed.

Example run_namedtuple_Point :
  let run := load_section true Examples.resolver (Examples.fresh_section "m.Point") in
  fst run = Ok tt /\
  title (snd run) = Some "Point namedtuple" /\
  content (snd run) = Some "Point(x, y)".
Proof. repeat split. Qed.

Example run_unknown :
  load_section true Examples.resolver (Examples.fresh_section "m.nothing")
  = (Raise (Raised "ValueError"), Examples.fresh_section "m.nothing").
Proof. reflexivity. Qed.

Example dedent_doc_o :
  dedent Examples.doc_o = "a" ++ nl ++ "  b" ++ nl ++ nl ++ "c".
Proof. reflexivity. Qed.

Example dedent_tabs_and_spaces :
  dedent ("  " ++ String tab_char "a" ++ nl ++ "    b") = String tab_char "a" ++ nl ++ "  b".
Proof. reflexivity. Qed.

Example str_Signature_keyword_only :
  str_Signature
    {| sig_parameters :=
         [ {| param_name := "a"; param_kind := POSITIONAL_ONLY;
              param_default := None; param_annotation := None |};
           {| param_name := "b"; param_kind := POSITIONAL_OR_KEYWORD;
              param_default := None; param_annotation := Some "int" |};
           {| param_name := "c"; param_kind := KEYWORD_ONLY;
              param_default := Some "3"; param_annotation := Some "int" |} ];
       sig_return_annotation := None |}
  = "(a, /, b: int, *, c: int = 3)".
Proof. reflexivity. Qed.

(** ** The claims *)

Lemma append_not_self (a c : string) : a <> EmptyString -> a ++ c <> c.
Proof.
  intros Ha E. apply (f_equal String.length) in E.
  rewrite length_append in E. destruct a; [easy|]. simpl in E. lia.
Qed.

Lemma fenced_not_empty (sig : string) : Spec.fenced sig <> EmptyString.
Proof. discriminate. Qed.

Lemma loaded_populated (ident : string) (obj : PyObj) (scope : option PyObj) (text : string) :
  Spec.populated (loaded ident obj scope text).
Proof. repeat split; discriminate. Qed.

(** The three ways a run can go, read off [run_resolved]. *)
Lemma run_cases (has_inspect_signature : bool)
      (import_object_with_scope : string -> result (PyObj * option PyObj))
      (s : PySection) (ident : string) (obj : PyObj) (scope : option PyObj) :
  identifier s = Some ident ->
  import_object_with_scope ident = Ok (obj, scope) ->
  let text := dedent (doc_or_empty obj) in
  let run := load_section has_inspect_signature import_object_with_scope s in
  (run = (Ok tt, loaded ident obj scope text)) \/
  (exists sig, run = (Ok tt, loaded ident obj scope (Spec.fenced sig ++ text))) \/
  (exists e, run = (Raise e, loaded ident obj scope text) /\
             get_function_signature has_inspect_signature obj (owner_of scope) false = Raise e).
Proof.
  intros H R text run. unfold run. rewrite (run_resolved _ _ _ H R). cbv zeta. fold text.
  destruct (py_callable obj && negb (contains "namedtuple" text)); [|now left].
  destruct (get_function_signature _ obj (owner_of scope) false) as [sig|e].
  - destruct (py_isclass obj); [now left|right; left; now exists sig].
  - right; right. now exists e.
Qed.



(** C2.  For a callable entity whose dedented documentation does not
    contain "namedtuple", the signature is computed: its error is the
    error of the call, and when it yields a text the call completes; the
    content is the fenced block followed by the documentation exactly when
    the entity is not a class, and the documentation alone when it is. *)
Theorem signature_block (has_inspect_signature : bool)
        (import_object_with_scope : string -> result (PyObj * option PyObj))
        (s : PySection) (ident : string) (obj : PyObj) (scope : option PyObj) :
  identifier s = Some ident ->
  import_object_with_scope ident = Ok (obj, scope) ->
  py_callable obj = true ->
  contains "namedtuple" (dedent (doc_or_empty obj)) = false ->
  let run := load_section has_inspect_signature import_object_with_scope s in
  let text := dedent (doc_or_empty obj) in
  match get_function_signature has_inspect_signature obj (owner_of scope) false with
  | Ok sig =>
      fst run = Ok tt /\
      (content (snd run) = Some (Spec.fenced sig ++ text) <-> py_isclass obj = false) /\
      (py_isclass obj = true -> content (snd run) = Some text)
  | Raise e => fst run = Raise e
  end.
Proof.
  intros H R Hc Hn run text. unfold run. rewrite (run_resolved _ _ _ H R).
  cbv zeta. fold text. rewrite Hc. fold text in Hn. rewrite Hn. cbn [andb negb].
  destruct (get_function_signature _ obj (owner_of scope) false) as [sig|e];
    [|reflexivity].
  destruct (py_isclass obj); cbn [fst snd loaded content].
  - split; [reflexivity|]. split; [|reflexivity]. split; [|discriminate].
    intros E. injection E as E. exfalso.
    exact (@append_not_self (Spec.fenced sig) text (@fenced_not_empty sig) (eq_sym E)).
  - split; [reflexivity|]. split; [tauto|discriminate].
Qed.

Lemma signature_block_witness :
  let run := load_section true Examples.resolver (Examples.fresh_section "m.f") in
  let text := dedent (doc_or_empty Examples.plain_f) in
  fst run = Ok tt /\
  (content (snd run) = Some (Spec.fenced "f(a, b=2, *args, **kw)" ++ text)
   <-> py_isclass Examples.plain_f = false) /\
  (py_isclass Examples.plain_f = true -> content (snd run) = Some text).
Proof.
  exact (signature_block true Examples.resolver (Examples.fresh_section "m.f")
           (ident := "m.f") (obj := Examples.plain_f) (scope := Some Examples.module_m)
           eq_refl eq_refl eq_refl eq_refl).
Defined.

(** C10.  [get_function_signature] reads [__name__] before it asks for the
    parameters: on a callable without [__name__] it raises an attribute
    error whatever the signature query would give, and when [load_section]
    reaches the signature step with such an entity the call raises that
    error with title, content and loader context already written. *)
Theorem signature_needs_name (has_inspect_signature : bool)
        (import_object_with_scope : string -> result (PyObj * option PyObj))
        (s : PySection) (ident : string) (obj : PyObj) (scope : option PyObj) :
  identifier s = Some ident ->
  import_object_with_scope ident = Ok (obj, scope) ->
  py_callable obj = true ->
  contains "namedtuple" (dedent (doc_or_empty obj)) = false ->
  py_name obj = None ->
  (forall owner show_module, exists a,
     get_function_signature has_inspect_signature obj owner show_module
     = Raise (AttributeError a)) /\
  let after := loaded ident obj scope (dedent (doc_or_empty obj)) in
  load_section has_inspect_signature import_object_with_scope s
  = (Raise (AttributeError "__name__"), after) /\
  Spec.populated after.
Proof.
  intros H R Hc Hn Hname.
  assert (G : forall owner show_module, exists a,
             get_function_signature has_inspect_signature obj owner show_module
             = Raise (AttributeError a) /\
             (show_module = false -> a = "__name__")).
  { intros owner show_module. unfold get_function_signature. rewrite Hname.
    destruct show_module; [destruct (py_module obj); cbn|cbn].
    - destruct (truthy_opt owner); cbn.
      + destruct (match owner with Some c => py_name c | None => None end); cbn;
          eexists; split; try reflexivity; discriminate.
      + eexists; split; [reflexivity|discriminate].
    - eexists; split; [reflexivity|discriminate].
    - destruct (truthy_opt owner); cbn.
      + destruct (match owner with Some c => py_name c | None => None end); cbn;
          eexists; split; reflexivity.
      + eexists; split; reflexivity. }
  split.
  - intros owner show_module. destruct (G owner show_module) as (a & E & _). eauto.
  - cbv zeta. split; [|apply loaded_populated].
    rewrite (run_resolved _ _ _ H R). cbv zeta. rewrite Hc, Hn. cbn [andb negb].
    destruct (G (owner_of scope) false) as (a & -> & Ha). now rewrite Ha.
Qed.

Lemma signature_needs_name_witness :
  (forall owner show_module, exists a,
     get_function_signature true Examples.partial_p owner show_module
     = Raise (AttributeError a)) /\
  let after := loaded "m.p" Examples.partial_p (Some Examples.module_m)
                 (dedent (doc_or_empty Examples.partial_p)) in
  load_section true Examples.resolver (Examples.fresh_section "m.p")
  = (Raise (AttributeError "__name__"), after) /\
  Spec.populated after.
Proof.
  exact (signature_needs_name true Examples.resolver (Examples.fresh_section "m.p")
           (ident := "m.p") (obj := Examples.partial_p) (scope := Some Examples.module_m)
           eq_refl eq_refl eq_refl eq_refl eq_refl).
Defined.

(** The title is written before the signature step and not touched after
    it. *)
Lemma run_title (has_inspect_signature : bool)
      (import_object_with_scope : string -> result (PyObj * option PyObj))
      (s : PySection) (ident : string) (obj : PyObj) (scope : option PyObj) :
  identifier s = Some ident ->
  import_object_with_scope ident = Ok (obj, scope) ->
  title (snd (load_section has_inspect_signature import_object_with_scope s))
  = Some (Spec.pre_suffix_title ident (py_name obj) ++ Spec.title_suffix obj scope).
Proof.
  intros H R.
  destruct (run_cases has_inspect_signature _ _ H R) as [E|[[sig E]|[e [E _]]]];
    now rewrite E.
Qed.

(** C3, as amended.  For an entity that passes the named-tuple duck-type
    check the title ends in " namedtuple", and the content is the dedented
    documentation without a signature block whenever the entity is a
    class, is not callable, or has "namedtuple" in its dedented
    documentation. *)
Theorem namedtuple_title_and_content (has_inspect_signature : bool)
        (import_object_with_scope : string -> result (PyObj * option PyObj))
        (s : PySection) (ident : string) (obj : PyObj) (scope : option PyObj) :
  identifier s = Some ident ->
  import_object_with_scope ident = Ok (obj, scope) ->
  isnamedtuple obj = true ->
  let after := snd (load_section has_inspect_signature import_object_with_scope s) in
  let text := dedent (doc_or_empty obj) in
  title after = Some (Spec.pre_suffix_title ident (py_name obj) ++ " namedtuple") /\
  (py_isclass obj = true \/ py_callable obj = false \/ contains "namedtuple" text = true ->
   content after = Some text).
Proof.
  intros H R Hnt after text. split.
  - unfold after. rewrite (run_title _ _ _ H R).
    unfold Spec.title_suffix, Spec.suffix_rules. now rewrite Hnt.
  - unfold after. rewrite (run_resolved _ _ _ H R). cbv zeta. fold text.
    intros [Hk|[Hc|Hn]].
    + rewrite Hk.
      destruct (py_callable obj && negb (contains "namedtuple" text)); [|reflexivity].
      now destruct (get_function_signature _ obj (owner_of scope) false).
    + now rewrite Hc.
    + rewrite Hn, andb_false_r. reflexivity.
Qed.

Lemma namedtuple_title_and_content_witness :
  let after := snd (load_section true Examples.resolver
                      (Examples.fresh_section "m.Point")) in
  let text := dedent (doc_or_empty Examples.namedtuple_Point) in
  title after = Some ("Point" ++ " namedtuple") /\
  (py_isclass Examples.namedtuple_Point = true \/
   py_callable Examples.namedtuple_Point = false \/
   contains "namedtuple" text = true ->
   content after = Some text).
Proof.
  exact (namedtuple_title_and_content true Examples.resolver
           (Examples.fresh_section "m.Point")
           (ident := "m.Point") (obj := Examples.namedtuple_Point)
           (scope := Some Examples.module_m) eq_refl eq_refl eq_refl).
Defined.

(** C3, the counterexample.  The function [m.r] passes the duck-type
    check, is callable, is not a class, and its documentation does not
    contain "namedtuple": its content starts with the signature block. *)
Lemma namedtuple_like_gets_block :
  isnamedtuple Examples.record_like = true /\
  Examples.resolver "m.r" = Ok (Examples.record_like, Some Examples.module_m) /\
  let after := snd (load_section true Examples.resolver (Examples.fresh_section "m.r")) in
  title after = Some "r namedtuple" /\
  content after = Some (Spec.fenced "r()" ++ "A record.") /\
  content after <> Some (dedent (doc_or_empty Examples.record_like)).
Proof. vm_compute. repeat split; discriminate. Qed.

(** C4.  The title is the title before the suffix followed by the suffix
    of the first matching rule, in the order: named-tuple duck type,
    " namedtuple"; class, " class"; callable in a scope that is not a
    class, " function"; otherwise, as for a callable whose scope is a
    class, no suffix. *)
Theorem title_suffix_first_match (has_inspect_signature : bool)
        (import_object_with_scope : string -> result (PyObj * option PyObj))
        (s : PySection) (ident : string) (obj : PyObj) (scope : option PyObj) :
  identifier s = Some ident ->
  import_object_with_scope ident = Ok (obj, scope) ->
  let base := Spec.pre_suffix_title ident (py_name obj) in
  let suffix := Spec.title_suffix obj scope in
  title (snd (load_section has_inspect_signature import_object_with_scope s))
  = Some (base ++ suffix) /\
  (isnamedtuple obj = true -> suffix = " namedtuple") /\
  (isnamedtuple obj = false -> py_isclass obj = true -> suffix = " class") /\
  (isnamedtuple obj = false -> py_isclass obj = false ->
   py_callable obj = true -> isclass_opt scope = false -> suffix = " function") /\
  (isnamedtuple obj = false -> py_isclass obj = false ->
   py_callable obj = true -> isclass_opt scope = true -> suffix = EmptyString) /\
  (isnamedtuple obj = false -> py_isclass obj = false ->
   py_callable obj = false -> suffix = EmptyString).
Proof.
  intros H R base suffix. split; [apply (run_title _ _ _ H R)|].
  unfold suffix, Spec.title_suffix, Spec.suffix_rules, Spec.first_match.
  repeat split; intros; repeat match goal with E : _ = _ |- _ => rewrite E; clear E end;
    reflexivity.
Qed.

Lemma title_suffix_first_match_witness :
  title (snd (load_section true Examples.resolver (Examples.fresh_section "m.f")))
  = Some ("f" ++ " function").
Proof.
  exact (proj1 (title_suffix_first_match true Examples.resolver
                  (Examples.fresh_section "m.f")
                  (ident := "m.f") (obj := Examples.plain_f)
                  (scope := Some Examples.module_m) eq_refl eq_refl)).
Defined.

(** C5.  The title before the suffix is the intrinsic name of the entity
    when it has one and the last segment of the identifier otherwise: what
    follows the last ['.'], or the whole identifier when it has no ['.'];
    the title [__init__] is replaced by [Constructor __init__]. *)
Theorem pre_suffix_title_derivation (has_inspect_signature : bool)
        (import_object_with_scope : string -> result (PyObj * option PyObj))
        (s : PySection) (ident : string) (obj : PyObj) (scope : option PyObj) :
  identifier s = Some ident ->
  import_object_with_scope ident = Ok (obj, scope) ->
  exists base default_title,
    title (snd (load_section has_inspect_signature import_object_with_scope s))
    = Some (base ++ Spec.title_suffix obj scope) /\
    (forall before segment,
        ident = before ++ "." ++ segment -> ~ occurs "." segment ->
        default_title = segment) /\
    (~ occurs "." ident -> default_title = ident) /\
    (let chosen := match py_name obj with
                   | Some name => name
                   | None => default_title
                   end in
     (chosen = "__init__" -> base = "Constructor __init__") /\
     (chosen <> "__init__" -> base = chosen)).
Proof.
  intros H R.
  exists (Spec.pre_suffix_title ident (py_name obj)), (Spec.last_segment ident).
  split; [apply (run_title _ _ _ H R)|].
  rewrite last_segment_rsplit. split; [|split].
  - intros before segment -> Hs. cbn [append].
    now rewrite (@rsplit1_pair_split "." before segment Hs).
  - intros Hn. now rewrite (rsplit1_pair_not_occurs _ _ Hn).
  - unfold Spec.pre_suffix_title. rewrite last_segment_rsplit. cbv zeta.
    split.
    + intros ->. reflexivity.
    + intros Hc. apply String.eqb_neq in Hc. now rewrite Hc.
Qed.

Lemma pre_suffix_title_derivation_witness :
  exists base default_title,
    title (snd (load_section true Examples.resolver (Examples.fresh_section "m.h")))
    = Some (base ++ Spec.title_suffix Examples.documented_h (Some Examples.module_m)) /\
    (forall before segment,
        "m.h" = before ++ "." ++ segment -> ~ occurs "." segment ->
        default_title = segment) /\
    (~ occurs "." "m.h" -> default_title = "m.h") /\
    (let chosen := match py_name Examples.documented_h with
                   | Some name => name
                   | None => default_title
                   end in
     (chosen = "__init__" -> base = "Constructor __init__") /\
     (chosen <> "__init__" -> base = chosen)).
Proof.
  exact (pre_suffix_title_derivation true Examples.resolver
           (Examples.fresh_section "m.h")
           (ident := "m.h") (obj := Examples.documented_h)
           (scope := Some Examples.module_m) eq_refl eq_refl).
Defined.

(** C8, as amended.  When the intrinsic name of the entity, if it has one,
    is not empty, and the last segment of the identifier, if the entity
    has no intrinsic name, is not empty, the title is not empty; without
    an intrinsic name it is built on the last segment of the
    identifier. *)
Theorem title_not_empty (has_inspect_signature : bool)
        (import_object_with_scope : string -> result (PyObj * option PyObj))
        (s : PySection) (ident : string) (obj : PyObj) (scope : option PyObj) :
  identifier s = Some ident ->
  import_object_with_scope ident = Ok (obj, scope) ->
  (forall name, py_name obj = Some name -> name <> EmptyString) ->
  (py_name obj = None -> Spec.last_segment ident <> EmptyString) ->
  exists t,
    title (snd (load_section has_inspect_signature import_object_with_scope s)) = Some t /\
    t <> EmptyString /\
    (py_name obj = None ->
     t = Spec.pre_suffix_title ident None ++ Spec.title_suffix obj scope).
Proof.
  intros H R Hname Hseg. eexists. split; [apply (run_title _ _ _ H R)|]. split.
  - unfold Spec.pre_suffix_title.
    set (chosen := match py_name obj with Some n => n | None => Spec.last_segment ident end).
    assert (Hc : chosen <> EmptyString).
    { unfold chosen. destruct (py_name obj) as [n|]; auto. }
    destruct (String.eqb chosen "__init__"); [discriminate|].
    destruct chosen; [easy|discriminate].
  - now intros ->.
Qed.

Lemma title_not_empty_witness :
  exists t,
    title (snd (load_section true Examples.resolver (Examples.fresh_section "m.h")))
    = Some t /\
    t <> EmptyString /\
    (py_name Examples.documented_h = None ->
     t = Spec.pre_suffix_title "m.h" None
         ++ Spec.title_suffix Examples.documented_h (Some Examples.module_m)).
Proof.
  refine (title_not_empty true Examples.resolver (Examples.fresh_section "m.h")
            (ident := "m.h") (obj := Examples.documented_h)
            (scope := Some Examples.module_m) eq_refl eq_refl _ _).
  - intros name E. discriminate E.
  - intros _. vm_compute. discriminate.
Defined.

(** C8, the counterexample.  The call on [m.u], an object that is not
    callable and whose [__name__] is the empty string, completes with the
    empty title. *)
Lemma empty_title :
  let run := load_section true Examples.resolver (Examples.fresh_section "m.u") in
  fst run = Ok tt /\ title (snd run) = Some EmptyString.
Proof. vm_compute. split; reflexivity. Qed.

(** C9.  [load_section] reads the world around it only through the
    resolver, and the resolver only at the identifier of the section.  So
    on two fresh sections with the same identifier, called at two moments
    between which the interpreter may have changed anywhere else (two
    resolvers) but the entity the identifier resolves to, its scope and
    their reflective metadata have not, [load_section] ends the same way
    and leaves the same title, content and loader context. *)
Theorem load_section_deterministic (has_inspect_signature : bool)
        (resolve_then resolve_later : string -> result (PyObj * option PyObj))
        (s1 s2 : PySection) :
  identifier s1 = identifier s2 ->
  Spec.fresh s1 -> Spec.fresh s2 ->
  (forall ident, identifier s1 = Some ident -> resolve_then ident = resolve_later ident) ->
  let run1 := load_section has_inspect_signature resolve_then s1 in
  let run2 := load_section has_inspect_signature resolve_later s2 in
  fst run1 = fst run2 /\
  title (snd run1) = title (snd run2) /\
  content (snd run1) = content (snd run2) /\
  loader_context (snd run1) = loader_context (snd run2).
Proof.
  intros Hid (T1 & C1 & L1) (T2 & C2 & L2) Hsame run1 run2. unfold run1, run2.
  destruct (identifier s1) as [ident|] eqn:H1; symmetry in Hid.
  - specialize (Hsame ident eq_refl).
    destruct (resolve_then ident) as [[obj scope]|e] eqn:R1; symmetry in Hsame.
    + rewrite (run_resolved _ _ _ H1 R1), (run_resolved _ _ _ Hid Hsame). auto.
    + rewrite (run_unresolved _ _ _ H1 R1), (run_unresolved _ _ _ Hid Hsame).
      cbn [fst snd]. rewrite T1, T2, C1, C2, L1, L2. auto.
  - rewrite (run_no_identifier _ resolve_then _ H1),
      (run_no_identifier _ resolve_later _ Hid).
    cbn [fst snd]. rewrite T1, T2, C1, C2, L1, L2. auto.
Qed.

(** The two resolvers of the examples differ on [m.C], [m.make] and
    [m.K.run] and agree on [m.f]. *)
Lemma load_section_deterministic_witness :
  Examples.resolver "m.C" <> MoreExamples.resolver "m.C" /\
  let run1 := load_section true Examples.resolver (Examples.fresh_section "m.f") in
  let run2 := load_section true MoreExamples.resolver (Examples.fresh_section "m.f") in
  fst run1 = fst run2 /\
  title (snd run1) = title (snd run2) /\
  content (snd run1) = content (snd run2) /\
  loader_context (snd run1) = loader_context (snd run2).
Proof.
  split; [discriminate|].
  refine (@load_section_deterministic true Examples.resolver MoreExamples.resolver
            (Examples.fresh_section "m.f") (Examples.fresh_section "m.f")
            eq_refl (conj eq_refl (conj eq_refl eq_refl))
            (conj eq_refl (conj eq_refl eq_refl)) _).
  intros ident E. injection E as <-. reflexivity.
Defined.

Lemma last_char_append (x : string) (c : ascii) :
  Spec.last_char (x ++ String c EmptyString) = Some c.
Proof.
  induction x as [|a x IH]; [reflexivity|].
  cbn [append Spec.last_char]. rewrite IH. now destruct x.
Qed.

(** C6, as amended.  [get_function_signature] returns the dotted name (the
    module when [show_module], then the name of the owner class when there
    is one, then the name of the callable unless it is [__init__])
    followed by the text of the parameters: under [inspect.signature] the
    parenthesized comma-joined parameter list and, when the signature has
    a return annotation, [ -> ] and the annotation; under [getargspec] the
    parenthesized comma-joined parameter list.  For the plain function
    [f(a, b=2, *args, **kw)] without owner class and module the result is
    [f(a, b=2, *args, **kw)] in both cases. *)
Theorem get_function_signature_format (has_inspect_signature : bool)
        (function : PyObj) (owner_class : option PyObj) (show_module : bool)
        (own_name : string) :
  py_name function = Some own_name ->
  (show_module = true -> py_module function <> None) ->
  (truthy_opt owner_class = true -> Spec.owner_name owner_class <> None) ->
  let name :=
    Spec.dotted_name (if show_module then py_module function else None)
                     (if truthy_opt owner_class then Spec.owner_name owner_class else None)
                     own_name in
  let formatted :=
    get_function_signature has_inspect_signature function owner_class show_module in
  (has_inspect_signature = true ->
   forall sg, py_signature function = Ok sg ->
     formatted =
     Ok (name ++ "(" ++ join ", " (render_params (sig_parameters sg) false true) ++ ")"
              ++ Spec.return_text sg)) /\
  (has_inspect_signature = false ->
   forall a, py_argspec function = Ok a -> Spec.argspec_wf a ->
     formatted = Ok (name ++ "(" ++ join ", " (Spec.argspec_items a) ++ ")")) /\
  get_function_signature has_inspect_signature Examples.plain_f None false
  = Ok "f(a, b=2, *args, **kw)".
Proof.
  intros Hname Hmod Hown name formatted.
  assert (Hhead : forall sig_text : result string,
    (name_parts <~ (if show_module
                    then m <~ attr "__module__" (py_module function) ;; Ok [m]
                    else Ok []) ;;
     name_parts <~ (if truthy_opt owner_class
                    then n <~ attr "__name__" (Spec.owner_name owner_class) ;;
                         Ok (app name_parts [n])
                    else Ok name_parts) ;;
     fname <~ attr "__name__" (py_name function) ;;
     let name_parts :=
       if negb (String.eqb fname "__init__") then app name_parts [fname]
       else name_parts in
     let name := join "." name_parts in
     sig <~ sig_text ;; Ok (name ++ sig))
    = (sig <~ sig_text ;; Ok (name ++ sig))).
  { intros sig_text. unfold name. rewrite Hname.
    destruct show_module.
    - destruct (py_module function) as [m|]; [|now destruct Hmod].
      destruct (truthy_opt owner_class).
      + destruct (Spec.owner_name owner_class) as [n|]; [|now destruct Hown].
        cbn. now destruct (String.eqb own_name "__init__").
      + cbn. now destruct (String.eqb own_name "__init__").
    - destruct (truthy_opt owner_class).
      + destruct (Spec.owner_name owner_class) as [n|]; [|now destruct Hown].
        cbn. now destruct (String.eqb own_name "__init__").
      + cbn. now destruct (String.eqb own_name "__init__"). }
  split; [|split].
  - intros -> sg Hsg. unfold formatted, get_function_signature.
    fold (Spec.owner_name owner_class). rewrite Hhead, Hsg. cbn [rbind].
    unfold str_Signature, Spec.return_text.
    destruct (sig_return_annotation sg); cbv zeta;
      rewrite ?append_assoc, ?append_empty_r; reflexivity.
  - intros -> a Ha Hwf. unfold formatted, get_function_signature.
    fold (Spec.owner_name owner_class). rewrite Hhead, Ha. cbn [rbind].
    now rewrite (argspec_signature_spec a Hwf).
  - now destruct has_inspect_signature.
Qed.

(** The method [K.__init__(self, x=None)] with the module shown, under
    [getargspec]: the name of the callable is left out. *)
Lemma get_function_signature_format_witness :
  get_function_signature false Examples.method_init (Some Examples.class_K) true
  = Ok "m.K(self, x=None)".
Proof.
  refine (proj1 (proj2 (@get_function_signature_format false Examples.method_init
                          (Some Examples.class_K) true "__init__" eq_refl _ _))
            eq_refl _ eq_refl _).
  - intros _. discriminate.
  - intros _. discriminate.
  - cbn. repeat constructor.
Defined.

(** C6, the counterexample.  For [def g(a) -> int] the result is
    [g(a) -> int], which is not the name followed by a parenthesized
    list. *)
Lemma return_annotation_follows :
  get_function_signature true Examples.annotated_g None false = Ok "g(a) -> int" /\
  forall params,
    "g(a) -> int" <> Spec.dotted_name None None "g" ++ "(" ++ params ++ ")".
Proof.
  split; [reflexivity|]. intros params E.
  apply (f_equal Spec.last_char) in E.
  change (Spec.dotted_name None None "g" ++ "(" ++ params ++ ")")
    with ("g(" ++ params ++ ")") in E.
  rewrite <- append_assoc, last_char_append in E. discriminate E.
Qed.

(** C7, as amended.  The content, before any signature block, is the
    documentation (the empty string when there is none) in which every
    line of spaces and tabs is emptied and every other line loses the
    margin, the longest run of spaces and tabs that starts all the lines
    which are not whitespace only; it is the documentation unchanged when
    the margin is empty and no line consists of spaces and tabs. *)
Theorem content_is_dedented (has_inspect_signature : bool)
        (import_object_with_scope : string -> result (PyObj * option PyObj))
        (s : PySection) (ident : string) (obj : PyObj) (scope : option PyObj) :
  identifier s = Some ident ->
  import_object_with_scope ident = Ok (obj, scope) ->
  let doc := match py_doc obj with Some d => d | None => EmptyString end in
  let lines := split nl_char doc in
  let after := snd (load_section has_inspect_signature import_object_with_scope s) in
  exists margin,
    Spec.is_margin margin lines /\
    let text := join nl (map (Spec.dedent_line margin) lines) in
    (content after = Some text \/
     exists sig, content after = Some (Spec.fenced sig ++ text)) /\
    (margin = EmptyString ->
     (forall l, In l lines -> whitespace_only l = true -> l = EmptyString) ->
     text = doc).
Proof.
  intros H R doc lines after.
  destruct (dedent_spec doc) as (margin & Hm & Hd).
  exists margin. split; [assumption|]. cbv zeta. fold lines in Hd. rewrite <- Hd.
  split.
  - unfold after.
    destruct (run_cases has_inspect_signature _ _ H R) as [E|[[sig E]|[e [E _]]]];
      rewrite E; cbn [snd loaded content]; eauto.
  - intros -> Hb. rewrite Hd, (dedent_line_unchanged _ Hb). apply join_split.
Qed.

Lemma content_is_dedented_witness :
  let lines := split nl_char Examples.doc_o in
  let after := snd (load_section true Examples.resolver (Examples.fresh_section "m.o")) in
  exists margin,
    Spec.is_margin margin lines /\
    let text := join nl (map (Spec.dedent_line margin) lines) in
    (content after = Some text \/
     exists sig, content after = Some (Spec.fenced sig ++ text)) /\
    (margin = EmptyString ->
     (forall l, In l lines -> whitespace_only l = true -> l = EmptyString) ->
     text = Examples.doc_o).
Proof.
  exact (content_is_dedented true Examples.resolver (Examples.fresh_section "m.o")
           (ident := "m.o") (obj := Examples.indented_o)
           (scope := Some Examples.module_m) eq_refl eq_refl).
Defined.

(** C7, the counterexample.  The lines of [doc_h] that are not whitespace
    only share no leading whitespace, its margin is empty, and yet the
    content differs from it: the last line, four spaces, is emptied. *)
Lemma dedent_changes_text_without_margin :
  Spec.is_margin EmptyString (split nl_char Examples.doc_h) /\
  let after := snd (load_section true Examples.resolver (Examples.fresh_section "m.h")) in
  content after = Some ("Foo" ++ nl ++ "    bar" ++ nl) /\
  content after <> Some Examples.doc_h.
Proof.
  split; [|vm_compute; split; [reflexivity|discriminate]].
  split; [reflexivity|]. split; [reflexivity|].
  intros p Hp _ Hall.
  assert (Hfoo : startswith p "Foo" = true).
  { apply Hall; [vm_compute; tauto|reflexivity]. }
  destruct p as [|a p]; [reflexivity|]. exfalso.
  cbn in Hp, Hfoo.
  apply andb_true_iff in Hp as [Ha _]. apply andb_true_iff in Hfoo as [Hf _].
  apply Ascii.eqb_eq in Hf; subst a. vm_compute in Ha. discriminate Ha.
Qed.

(** ** Further properties of the loader *)

Lemma run_identifier (has_inspect_signature : bool)
      (import_object_with_scope : string -> result (PyObj * option PyObj))
      (s : PySection) :
  identifier (snd (load_section has_inspect_signature import_object_with_scope s))
  = identifier s.
Proof.
  destruct (identifier s) as [ident|] eqn:H.
  - destruct (import_object_with_scope ident) as [[obj scope]|e] eqn:R.
    + destruct (run_cases has_inspect_signature _ _ H R) as [E|[[sig E]|[e [E _]]]];
        now rewrite E.
    + now rewrite (run_unresolved _ _ _ H R).
  - now rewrite (run_no_identifier _ _ _ H).
Qed.

Lemma load_section_overwrites_aux (has_inspect_signature : bool)
      (import_object_with_scope : string -> result (PyObj * option PyObj))
      (s1 s2 : PySection) (ident : string) (obj : PyObj) (scope : option PyObj) :
  identifier s1 = Some ident ->
  identifier s2 = Some ident ->
  import_object_with_scope ident = Ok (obj, scope) ->
  load_section has_inspect_signature import_object_with_scope s1
  = load_section has_inspect_signature import_object_with_scope s2.
Proof.
  intros H1 H2 R. now rewrite (run_resolved _ _ _ H1 R), (run_resolved _ _ _ H2 R).
Qed.



(** X1.  [load_section] never changes the identifier, and running it again
    on the section it left ends the same way and leaves the same section:
    no suffix and no signature block is added twice. *)
Theorem load_section_idempotent (has_inspect_signature : bool)
        (import_object_with_scope : string -> result (PyObj * option PyObj))
        (s : PySection) :
  let run := load_section has_inspect_signature import_object_with_scope in
  identifier (snd (run s)) = identifier s /\
  run (snd (run s)) = run s.
Proof.
  cbv zeta. split; [apply run_identifier|].
  destruct (identifier s) as [ident|] eqn:H.
  - destruct (import_object_with_scope ident) as [[obj scope]|e] eqn:R.
    + apply load_section_overwrites_aux with (ident := ident) (obj := obj) (scope := scope);
        [rewrite run_identifier| |]; assumption.
    + rewrite (run_unresolved _ _ _ H R). cbn [snd]. apply (run_unresolved _ _ _ H R).
  - rewrite (run_no_identifier _ _ _ H). cbn [snd]. apply (run_no_identifier _ _ _ H).
Qed.


(** X3.  The content differs from the dedented documentation only for a
    callable entity that is not a class and whose dedented documentation
    does not contain "namedtuple": then the call has completed and the
    content is the fenced signature followed by that documentation. *)
Theorem signature_block_only_for_functions (has_inspect_signature : bool)
        (import_object_with_scope : string -> result (PyObj * option PyObj))
        (s : PySection) (ident : string) (obj : PyObj) (scope : option PyObj) :
  identifier s = Some ident ->
  import_object_with_scope ident = Ok (obj, scope) ->
  let text := dedent (doc_or_empty obj) in
  let run := load_section has_inspect_signature import_object_with_scope s in
  content (snd run) <> Some text ->
  py_callable obj = true /\ py_isclass obj = false /\
  contains "namedtuple" text = false /\
  exists sig,
    get_function_signature has_inspect_signature obj (owner_of scope) false = Ok sig /\
    run = (Ok tt, loaded ident obj scope (Spec.fenced sig ++ text)).
Proof.
  intros H R text run. unfold run. rewrite (run_resolved _ _ _ H R). cbv zeta. fold text.
  destruct (py_callable obj); [|now intros []].
  destruct (contains "namedtuple" text); [now intros []|]. cbn [andb negb].
  destruct (get_function_signature _ obj (owner_of scope) false) as [sig|e];
    [|now intros []].
  destruct (py_isclass obj); [now intros []|]. intros _.
  repeat split. now exists sig.
Qed.

Lemma signature_block_only_for_functions_witness :
  py_callable Examples.plain_f = true /\ py_isclass Examples.plain_f = false /\
  contains "namedtuple" (dedent (doc_or_empty Examples.plain_f)) = false /\
  exists sig,
    get_function_signature true Examples.plain_f
      (owner_of (Some Examples.module_m)) false = Ok sig /\
    load_section true Examples.resolver (Examples.fresh_section "m.f")
    = (Ok tt, loaded "m.f" Examples.plain_f (Some Examples.module_m)
                (Spec.fenced sig ++ dedent (doc_or_empty Examples.plain_f))).
Proof.
  refine (@signature_block_only_for_functions true Examples.resolver
            (Examples.fresh_section "m.f") "m.f" Examples.plain_f
            (Some Examples.module_m) eq_refl eq_refl _).
  vm_compute. discriminate.
Defined.



(** X5.  Without a docstring (none, or the empty one) the content is the
    fenced signature alone for a callable that is not a class, and the
    empty string for every other entity, also when the call raises in the
    signature step. *)
Theorem content_without_docstring (has_inspect_signature : bool)
        (import_object_with_scope : string -> result (PyObj * option PyObj))
        (s : PySection) (ident : string) (obj : PyObj) (scope : option PyObj) :
  identifier s = Some ident ->
  import_object_with_scope ident = Ok (obj, scope) ->
  (py_doc obj = None \/ py_doc obj = Some EmptyString) ->
  let after := snd (load_section has_inspect_signature import_object_with_scope s) in
  match get_function_signature has_inspect_signature obj (owner_of scope) false with
  | Ok sig =>
      content after
      = Some (if py_callable obj && negb (py_isclass obj) then Spec.fenced sig
              else EmptyString)
  | Raise _ => content after = Some EmptyString
  end.
Proof.
  intros H R Hdoc after. unfold after. rewrite (run_resolved _ _ _ H R). cbv zeta.
  assert (Ht : dedent (doc_or_empty obj) = EmptyString).
  { unfold doc_or_empty. now destruct Hdoc as [-> | ->]. }
  rewrite Ht. change (contains "namedtuple" EmptyString) with false.
  cbn [negb]. rewrite andb_true_r.
  destruct (get_function_signature _ obj (owner_of scope) false) as [sig|e];
    destruct (py_callable obj), (py_isclass obj); cbn [negb andb snd loaded content];
    rewrite ?append_empty_r; reflexivity.
Qed.

Lemma content_without_docstring_witness :
  content (snd (load_section true Examples.resolver (Examples.fresh_section "m.f")))
  = Some (Spec.fenced "f(a, b=2, *args, **kw)").
Proof.
  exact (@content_without_docstring true Examples.resolver
           (Examples.fresh_section "m.f") "m.f" Examples.plain_f
           (Some Examples.module_m) eq_refl eq_refl (or_introl eq_refl)).
Defined.

(** With the name attributes present, [get_function_signature] is the
    dotted name in front of the text of the parameters. *)
Lemma get_function_signature_unfold (has_inspect_signature : bool)
      (function : PyObj) (owner_class : option PyObj) (show_module : bool)
      (own_name : string) :
  py_name function = Some own_name ->
  (show_module = true -> py_module function <> None) ->
  (truthy_opt owner_class = true -> Spec.owner_name owner_class <> None) ->
  get_function_signature has_inspect_signature function owner_class show_module
  = (params <~ Spec.parameters_text has_inspect_signature function ;;
     Ok (Spec.dotted_name
           (if show_module then py_module function else None)
           (if truthy_opt owner_class then Spec.owner_name owner_class else None)
           own_name ++ params)).
Proof.
  intros Hname Hmod Hown. unfold get_function_signature.
  fold (Spec.owner_name owner_class). fold (Spec.parameters_text has_inspect_signature function).
  rewrite Hname.
  generalize (Spec.parameters_text has_inspect_signature function). intros text.
  destruct show_module.
  - destruct (py_module function) as [m|]; [|now destruct Hmod].
    destruct (truthy_opt owner_class).
    + destruct (Spec.owner_name owner_class) as [n|]; [|now destruct Hown].
      cbn. now destruct (String.eqb own_name "__init__").
    + cbn. now destruct (String.eqb own_name "__init__").
  - destruct (truthy_opt owner_class).
    + destruct (Spec.owner_name owner_class) as [n|]; [|now destruct Hown].
      cbn. now destruct (String.eqb own_name "__init__").
    + cbn. now destruct (String.eqb own_name "__init__").
Qed.

(** X7.  The exception of the reflective query ([inspect.signature], or
    [inspect.getargspec] where the former is missing) reaches the caller
    of [load_section] unchanged, once title, content and loader context
    are written. *)
Theorem query_error_surfaces (has_inspect_signature : bool)
        (import_object_with_scope : string -> result (PyObj * option PyObj))
        (s : PySection) (ident : string) (obj : PyObj) (scope : option PyObj)
        (own_name : string) (e : exn) :
  identifier s = Some ident ->
  import_object_with_scope ident = Ok (obj, scope) ->
  py_callable obj = true ->
  contains "namedtuple" (dedent (doc_or_empty obj)) = false ->
  py_name obj = Some own_name ->
  (truthy_opt (owner_of scope) = true -> Spec.owner_name (owner_of scope) <> None) ->
  (has_inspect_signature = true -> py_signature obj = Raise e) ->
  (has_inspect_signature = false -> py_argspec obj = Raise e) ->
  load_section has_inspect_signature import_object_with_scope s
  = (Raise e, loaded ident obj scope (dedent (doc_or_empty obj))).
Proof.
  intros H R Hc Hn Hname Hown Hsig Hspec.
  rewrite (run_resolved _ _ _ H R). cbv zeta. rewrite Hc, Hn. cbn [andb negb].
  rewrite (get_function_signature_unfold has_inspect_signature obj (owner_of scope)
             (show_module := false) Hname (fun E => False_ind _ (diff_false_true E)) Hown).
  unfold Spec.parameters_text. destruct has_inspect_signature.
  - now rewrite Hsig.
  - now rewrite Hspec.
Qed.

Lemma query_error_surfaces_witness :
  load_section true Examples.resolver (Examples.fresh_section "m.b")
  = (Raise (Raised "ValueError"),
     loaded "m.b" Examples.builtin_b (Some Examples.module_m) "Built in.").
Proof.
  refine (@query_error_surfaces true Examples.resolver (Examples.fresh_section "m.b")
            "m.b" Examples.builtin_b (Some Examples.module_m) "b" (Raised "ValueError")
            eq_refl eq_refl eq_refl eq_refl eq_refl _ (fun _ => eq_refl) _).
  - intros E. discriminate E.
  - intros E. discriminate E.
Defined.



(** *** The word "namedtuple" and [dedent] *)

Lemma startswith_before_newline (w a b : string) :
  ~ occurs nl_char w ->
  startswith w (a ++ String nl_char b) = startswith w a.
Proof.
  revert a; induction w as [|c w IH]; intros a Hw; [reflexivity|].
  cbn [occurs] in Hw. destruct a as [|x a]; cbn [append startswith].
  - destruct (Ascii.eqb c nl_char) eqn:E; [|reflexivity].
    apply Ascii.eqb_eq in E. tauto.
  - rewrite IH by tauto. reflexivity.
Qed.

Lemma contains_around_newline (w a b : string) :
  ~ occurs nl_char w ->
  contains w (a ++ String nl_char b) = contains w a || contains w b.
Proof.
  intros Hw. induction a as [|x a IH].
  - pose proof (@startswith_before_newline w EmptyString b Hw) as E.
    cbn [append] in E. cbn [append contains]. rewrite E. now rewrite orb_false_r.
  - pose proof (@startswith_before_newline w (String x a) b Hw) as E.
    cbn [append] in E. cbn [append contains]. rewrite E, IH. now rewrite orb_assoc.
Qed.

Lemma contains_join (w : string) (ls : list string) :
  ~ occurs nl_char w -> w <> EmptyString ->
  contains w (join nl ls) = existsb (contains w) ls.
Proof.
  intros Hw Hne. induction ls as [|x [|y r] IH].
  - destruct w; [easy|reflexivity].
  - cbn. now rewrite orb_false_r.
  - change (join nl (x :: y :: r)) with (x ++ String nl_char (join nl (y :: r))).
    rewrite (@contains_around_newline w x _ Hw), IH. reflexivity.
Qed.

Lemma contains_after_blanks (c : ascii) (w m rest : string) :
  is_blank_char c = false -> whitespace_only m = true ->
  contains (String c w) (m ++ rest) = contains (String c w) rest.
Proof.
  intros Hc. induction m as [|b m IH]; intros Hm; [reflexivity|].
  cbn in Hm. apply andb_true_iff in Hm as [Hb Hm].
  cbn [append contains startswith]. rewrite (IH Hm).
  destruct (Ascii.eqb c b) eqn:E; [|reflexivity].
  apply Ascii.eqb_eq in E. congruence.
Qed.

Lemma contains_dedent_line (w margin : string) (lines : list string) (l : string) :
  Spec.solid_word w -> Spec.is_margin margin lines -> In l lines ->
  contains w (Spec.dedent_line margin l) = contains w l.
Proof.
  intros [_ Hw] Hm Hl. destruct w as [|c w]; [easy|].
  destruct (whitespace_only l) eqn:E.
  - unfold Spec.dedent_line. rewrite E.
    rewrite <- (append_empty_r l) at 1.
    now rewrite (@contains_after_blanks c w l EmptyString Hw E).
  - rewrite (@dedent_line_removes_margin margin lines l Hm Hl E) at 2.
    destruct Hm as [Hmw _]. now rewrite (@contains_after_blanks c w _ _ Hw Hmw).
Qed.

Lemma existsb_map_in {A} (f : A -> bool) (g : A -> A) (xs : list A) :
  (forall x, In x xs -> f (g x) = f x) ->
  existsb f (map g xs) = existsb f xs.
Proof.
  induction xs as [|x xs IH]; intros H; [reflexivity|].
  cbn [map existsb]. rewrite H by (left; reflexivity).
  rewrite IH; [reflexivity|]. intros y Hy. apply H. now right.
Qed.

(** [dedent] neither destroys nor creates an occurrence of a solid word. *)
Lemma contains_dedent (w text : string) :
  Spec.solid_word w -> contains w (dedent text) = contains w text.
Proof.
  intros Hs. destruct (dedent_spec text) as (margin & Hm & ->).
  assert (Hne : w <> EmptyString) by (destruct Hs as [_ H]; now destruct w).
  rewrite <- (join_split text) at 2.
  rewrite !contains_join by (assumption || apply Hs).
  apply existsb_map_in. intros l Hl.
  exact (@contains_dedent_line w margin _ l Hs Hm Hl).
Qed.

Lemma solid_namedtuple : Spec.solid_word "namedtuple".
Proof.
  split; [|reflexivity]. cbn [occurs]. intros H.
  repeat (destruct H as [H|H]; [discriminate H|]). exact H.
Qed.

(** X6.  Whether the signature step runs can be read off the docstring as
    it is written: [dedent] neither removes nor creates an occurrence of
    "namedtuple".  An entity whose docstring contains the word completes
    without a signature query, with the dedented docstring as content. *)
Theorem namedtuple_guard_reads_docstring (has_inspect_signature : bool)
        (import_object_with_scope : string -> result (PyObj * option PyObj))
        (s : PySection) (ident : string) (obj : PyObj) (scope : option PyObj) :
  identifier s = Some ident ->
  import_object_with_scope ident = Ok (obj, scope) ->
  contains "namedtuple" (doc_or_empty obj) = true ->
  load_section has_inspect_signature import_object_with_scope s
  = (Ok tt, loaded ident obj scope (dedent (doc_or_empty obj))) /\
  forall doc, contains "namedtuple" (dedent doc) = contains "namedtuple" doc.
Proof.
  intros H R Hn. split; [|intros doc; apply contains_dedent, solid_namedtuple].
  rewrite (run_resolved _ _ _ H R). cbv zeta.
  rewrite (contains_dedent (doc_or_empty obj) solid_namedtuple), Hn.
  now rewrite andb_false_r.
Qed.

Lemma namedtuple_guard_reads_docstring_witness :
  load_section true MoreExamples.resolver (Examples.fresh_section "m.make")
  = (Ok tt, loaded "m.make" MoreExamples.function_make (Some Examples.module_m)
              "Return a namedtuple.").
Proof.
  exact (proj1 (@namedtuple_guard_reads_docstring true MoreExamples.resolver
                  (Examples.fresh_section "m.make") "m.make"
                  MoreExamples.function_make (Some Examples.module_m)
                  eq_refl eq_refl eq_refl)).
Defined.

(** *** The two reflective queries on a plain function *)

Lemma render_params_positional (names : list Param) (rest : list Param) (kw : bool) :
  (forall p, In p names -> param_kind p = POSITIONAL_OR_KEYWORD) ->
  render_params (names ++ rest) false kw
  = (map str_Param names ++ render_params rest false kw)%list.
Proof.
  induction names as [|p ps IH]; intros H; [reflexivity|].
  cbn [app map render_params]. rewrite (H p (or_introl eq_refl)). cbn [app].
  rewrite IH; [reflexivity|]. intros q Hq. apply H. now right.
Qed.

Lemma defaulted_params_kind (names defaults : list string) (p : Param) :
  In p (Spec.defaulted_params names defaults) -> param_kind p = POSITIONAL_OR_KEYWORD.
Proof.
  revert defaults; induction names as [|n ns IH]; intros [|d ds]; cbn; try tauto.
  - intros [<-|H]; [reflexivity|].
    apply in_map_iff in H as (x & <- & _). reflexivity.
  - intros [<-|H]; [reflexivity|]. now apply (IH ds).
Qed.

Lemma str_defaulted_params (names defaults : list string) :
  map str_Param (Spec.defaulted_params names defaults) = Spec.with_defaults names defaults.
Proof.
  revert defaults; induction names as [|n ns IH]; intros [|d ds]; cbn; try reflexivity.
  - f_equal. rewrite map_map. cbn. apply map_id.
  - f_equal. apply IH.
Qed.

Lemma str_plain_params (names : list string) :
  map str_Param (map (fun n => Spec.plain_param POSITIONAL_OR_KEYWORD n None) names) = names.
Proof. rewrite map_map. cbn. apply map_id. Qed.

(** The text of [inspect.signature] on the signature of a plain function is
    the parameter list of the [getargspec] branch. *)
Lemma str_plain_signature (a : ArgSpec) :
  argspec_varargs a <> Some EmptyString ->
  argspec_keywords a <> Some EmptyString ->
  str_Signature (Spec.plain_signature a) = "(" ++ join ", " (Spec.argspec_items a) ++ ")".
Proof.
  intros Hv Hk. unfold str_Signature, Spec.plain_signature, Spec.argspec_items.
  cbn [sig_parameters sig_return_annotation]. cbv zeta.
  set (defaults := match argspec_defaults a with Some ds => ds | None => [] end).
  set (k := (List.length (argspec_args a) - List.length defaults)%nat).
  do 2 f_equal. f_equal.
  rewrite render_params_positional
    by (intros p Hp; apply in_map_iff in Hp as (x & <- & _); reflexivity).
  rewrite str_plain_params. f_equal.
  rewrite render_params_positional by (intros p; apply defaulted_params_kind).
  rewrite str_defaulted_params. f_equal.
  destruct (argspec_varargs a) as [v|], (argspec_keywords a) as [w|]; cbn;
    try (destruct (String.eqb v EmptyString) eqn:Ev;
         [apply String.eqb_eq in Ev; subst; now destruct Hv|]);
    try (destruct (String.eqb w EmptyString) eqn:Ew;
         [apply String.eqb_eq in Ew; subst; now destruct Hk|]);
    reflexivity.
Qed.

(** X9.  On a plain function (named parameters, the last ones with
    defaults, [*args], [**kwargs], no annotations) the result of
    [get_function_signature] does not depend on which reflective query the
    running Python offers: the [inspect.signature] branch and the
    [getargspec] branch give the same text, or fail in the same way on a
    missing name attribute. *)
Theorem branches_agree_on_plain_functions (function : PyObj) (owner_class : option PyObj)
        (show_module : bool) (a : ArgSpec) :
  py_argspec function = Ok a ->
  py_signature function = Ok (Spec.plain_signature a) ->
  Spec.argspec_wf a ->
  argspec_varargs a <> Some EmptyString ->
  argspec_keywords a <> Some EmptyString ->
  get_function_signature true function owner_class show_module
  = get_function_signature false function owner_class show_module.
Proof.
  intros Ha Hs Hwf Hv Hk. unfold get_function_signature.
  rewrite Ha, Hs. cbn [rbind].
  now rewrite (argspec_signature_spec a Hwf), (str_plain_signature a Hv Hk).
Qed.

Lemma branches_agree_on_plain_functions_witness :
  get_function_signature true Examples.plain_f None false
  = get_function_signature false Examples.plain_f None false.
Proof.
  refine (@branches_agree_on_plain_functions Examples.plain_f None false
            {| argspec_args := ["a"; "b"]; argspec_varargs := Some "args";
               argspec_keywords := Some "kw"; argspec_defaults := Some ["2"] |}
            eq_refl eq_refl _ _ _).
  - cbn. repeat constructor.
  - intros E. discriminate E.
  - intros E. discriminate E.
Defined.
